(** * Pattern network visualizer

    A shallow embedding of [pattern_network_visualizer.py]: the two static
    tables, the graph builder [create_pattern_network], the renderer
    [visualize_pattern_network] and the exporter [save_network_data],
    together with the part of networkx's [Graph] class the script calls
    ([add_node], [add_edge], [nodes(data=True)], [edges()],
    [number_of_nodes], [number_of_edges]).

    Python dictionaries keep insertion order, and the order decides what
    [G.nodes] and [G.edges] enumerate, so a dictionary is an association
    list whose keys are pairwise distinct. *)

From Stdlib Require Import List String Bool Arith Lia QArith.
From Stdlib Require DecimalString.
Import ListNotations.
Local Open Scope string_scope.
Local Open Scope nat_scope.

Set Implicit Arguments.
Set Warnings "-register-all".

(* ===================================================================== *)
(** ** Python dictionaries *)
(* ===================================================================== *)

Module PyDict.

Section Ops.
Context {V : Type}.

Definition dict := list (string * V).

(** [d.get(k)] *)
Fixpoint dict_get (k : string) (d : dict) : option V :=
  match d with
  | [] => None
  | (k', v) :: d' => if String.eqb k k' then Some v else dict_get k d'
  end.

(** [k in d] *)
Definition dict_mem (k : string) (d : dict) : bool :=
  match dict_get k d with Some _ => true | None => false end.

(** [d.get(k, default)] *)
Definition dict_get_default (k : string) (default : V) (d : dict) : V :=
  match dict_get k d with Some v => v | None => default end.

(** [d[k] = v]: an existing key keeps its position, a new key goes last. *)
Fixpoint dict_set (k : string) (v : V) (d : dict) : dict :=
  match d with
  | [] => [(k, v)]
  | (k', v') :: d' =>
      if String.eqb k k' then (k, v) :: d' else (k', v') :: dict_set k v d'
  end.

(** [d.update(other)] *)
Definition dict_update (d other : dict) : dict :=
  fold_left (fun acc kv => dict_set (fst kv) (snd kv) acc) other d.

(** [d.keys()], [d.items()], [len(d)] *)
Definition keys (d : dict) : list string := map fst d.
Definition items (d : dict) : list (string * V) := d.
Definition len (d : dict) : nat := List.length d.

(** A dictionary display [{k1: v1, ..., kn: vn}] is evaluated left to
    right, a repeated key overwriting the earlier value. *)
Definition dict_display (entries : list (string * V)) : dict :=
  dict_update [] entries.

(** Representation invariant: no key occurs twice. *)
Fixpoint distinct (l : list string) : bool :=
  match l with
  | [] => true
  | x :: l' => negb (existsb (String.eqb x) l') && distinct l'
  end.

Definition dict_wf (d : dict) : bool := distinct (keys d).
End Ops.

Arguments dict V : clear implicits.

End PyDict.
Import PyDict.

(* ===================================================================== *)
(** ** Exceptions *)
(* ===================================================================== *)

Inductive exn : Type :=
| KeyError (key : string)
| AttributeError (msg : string).

Inductive result (A : Type) : Type :=
| Ok (a : A)
| Raise (e : exn).
Arguments Ok {A} a.
Arguments Raise {A} e.

Definition rbind {A B} (r : result A) (k : A -> result B) : result B :=
  match r with
  | Ok a => k a
  | Raise e => Raise e
  end.

(** [d[k]] *)
Definition subscript {V} (d : dict V) (k : string) : result V :=
  match dict_get k d with
  | Some v => Ok v
  | None => Raise (KeyError k)
  end.

(** [for x in l: s = body(x, s)], stopping at the first exception. *)
Fixpoint for_in {A S : Type} (l : list A) (body : A -> S -> result S) (s : S)
  : result S :=
  match l with
  | [] => Ok s
  | x :: l' =>
      match body x s with
      | Ok s' => for_in l' body s'
      | Raise e => Raise e
      end
  end.

(* ===================================================================== *)
(** ** networkx.Graph *)
(* ===================================================================== *)

Module nx.

(** Attribute dictionaries of nodes and edges; the script only stores
    strings in them. *)
Definition attr_dict := dict string.

(** [Graph._node] maps a node to its attributes, [Graph._adj] maps a node
    to the dictionary of its neighbours (neighbour to edge attributes). *)
Record Graph : Type := mkGraph {
  _node : dict attr_dict;
  _adj : dict (dict attr_dict)
}.

(** [nx.Graph()] *)
Definition empty_graph : Graph := {| _node := []; _adj := [] |}.

(** [G.add_node(n, **attr)]: a new node gets an empty neighbour dictionary
    and the attributes; an existing node has its attributes updated. *)
Definition add_node (G : Graph) (n : string) (attr : attr_dict) : Graph :=
  match dict_get n (_node G) with
  | None =>
      {| _node := dict_set n (dict_update [] attr) (_node G);
         _adj := dict_set n [] (_adj G) |}
  | Some attr_old =>
      {| _node := dict_set n (dict_update attr_old attr) (_node G);
         _adj := _adj G |}
  end.

(** The first half of [add_edge]: an endpoint that is not yet a node is
    created with no attributes. *)
Definition touch_node (G : Graph) (u : string) : Graph :=
  if dict_mem u (_node G) then G
  else {| _node := dict_set u [] (_node G); _adj := dict_set u [] (_adj G) |}.

(** [G.add_edge(u, v)] with no attributes:
<<
    datadict = self._adj[u].get(v, {})
    self._adj[u][v] = datadict
    self._adj[v][u] = datadict
>>
    The one [datadict] object is stored under both directions; the script
    never writes an edge attribute, so the sharing is not observable here. *)
Definition add_edge (G : Graph) (u v : string) : result Graph :=
  let G1 := touch_node (touch_node G u) v in
  rbind (subscript (_adj G1) u) (fun adj_u =>
  let datadict := dict_get_default v [] adj_u in
  let adj2 := dict_set u (dict_set v datadict adj_u) (_adj G1) in
  rbind (subscript adj2 v) (fun adj_v =>
  let adj3 := dict_set v (dict_set u datadict adj_v) adj2 in
  Ok {| _node := _node G1; _adj := adj3 |})).

(** [G.nodes(data=True)] *)
Definition nodes_data (G : Graph) : list (string * attr_dict) :=
  items (_node G).

(** [G.number_of_nodes()] is [len(self._node)]. *)
Definition number_of_nodes (G : Graph) : nat := len (_node G).

(** [G.has_edge(u, v)]: [v in self._adj[u]], [False] on a [KeyError]. *)
Definition has_edge (G : Graph) (u v : string) : bool :=
  match dict_get u (_adj G) with
  | Some nbrs => dict_mem v nbrs
  | None => false
  end.

(** [G.edges()] (EdgeView.__iter__):
<<
    seen = {}
    for n, nbrs in self._nodes_nbrs():
        for nbr in list(nbrs):
            if nbr not in seen:
                yield (n, nbr)
        seen[n] = 1
>> *)
Fixpoint edges_iter (seen : dict nat) (nodes_nbrs : list (string * dict attr_dict))
  : list (string * string) :=
  match nodes_nbrs with
  | [] => []
  | (n, nbrs) :: rest =>
      map (fun nbr => (n, nbr))
          (filter (fun nbr => negb (dict_mem nbr seen)) (keys nbrs))
      ++ edges_iter (dict_set n 1 seen) rest
  end.

Definition edges (G : Graph) : list (string * string) :=
  edges_iter [] (items (_adj G)).

(** [G.degree]: [len(nbrs) + (n in nbrs)], a self-loop counting twice. *)
Definition degree_of (n : string) (nbrs : dict attr_dict) : nat :=
  len nbrs + (if dict_mem n nbrs then 1 else 0).

(** [G.size()] is [sum(d for v, d in self.degree()) // 2], and
    [G.number_of_edges()] is [int(self.size())]. *)
Definition size (G : Graph) : nat :=
  list_sum (map (fun nn => degree_of (fst nn) (snd nn)) (items (_adj G))) / 2.

Definition number_of_edges (G : Graph) : nat := size G.

(** The invariant every [Graph] object satisfies: [_node] and [_adj] have
    the same keys, no dictionary repeats a key, and adjacency is symmetric
    (so every neighbour is itself a node). *)
Definition list_eqb (l1 l2 : list string) : bool :=
  if list_eq_dec string_dec l1 l2 then true else false.

Definition graph_wf (G : Graph) : bool :=
  dict_wf (_node G)
  && list_eqb (keys (_adj G)) (keys (_node G))
  && forallb (fun nn =>
       dict_wf (snd nn)
       && forallb (fun nbr => has_edge G nbr (fst nn)) (keys (snd nn)))
     (items (_adj G)).

(** The pair [e] joins [u] and [v], in either direction. *)
Definition joins (u v : string) (e : string * string) : bool :=
  String.eqb (fst e) u && String.eqb (snd e) v
  || String.eqb (fst e) v && String.eqb (snd e) u.

(** How many pairs of an edge list join [u] and [v]. *)
Definition multiplicity (u v : string) (l : list (string * string)) : nat :=
  List.length (filter (joins u v) l).

(** The invariant of [nx.graph_wf], as a proposition. *)
Record WF (G : Graph) : Prop := mkWF {
  wf_node_keys : NoDup (keys (_node G));
  wf_adj_keys : keys (_adj G) = keys (_node G);
  wf_nbrs : forall n nbrs, dict_get n (_adj G) = Some nbrs -> NoDup (keys nbrs);
  wf_sym : forall u v, has_edge G u v = true -> has_edge G v u = true
}.

(** *** Notions used to reason about [edges] *)

(** Membership in a list of names. *)
Definition memb (x : string) (l : list string) : bool := existsb (String.eqb x) l.

(** The neighbours [edges_iter] still yields. *)
Definition unseen (seen : dict nat) (l : list string) : list string :=
  filter (fun nbr => negb (dict_mem nbr seen)) l.

(** The state of the enumeration: [seen] holds the nodes already visited,
    [rest] the adjacency entries still to visit. *)
Record Enum (seen : dict nat) (rest : list (string * dict attr_dict)) : Prop := mkEnum {
  en_nodup : NoDup (keys rest);
  en_disj : forall k, In k (keys rest) -> dict_mem k seen = false;
  en_nbrs : forall n nbrs, In (n, nbrs) rest -> NoDup (keys nbrs);
  en_closed : forall n nbrs x, In (n, nbrs) rest -> In x (keys nbrs) ->
                dict_mem x seen = true \/ In x (keys rest);
  en_sym : forall a abrs b bbrs, In (a, abrs) rest -> In (b, bbrs) rest ->
             In b (keys abrs) -> In a (keys bbrs)
}.

(** The degrees of the remaining nodes, counting unseen neighbours only. *)
Definition degree_sum (seen : dict nat) (rest : list (string * dict attr_dict)) : nat :=
  list_sum (map (fun nn => List.length (unseen seen (keys (snd nn)))
                           + (if dict_mem (fst nn) (snd nn) then 1 else 0)) rest).

End nx.

(* ===================================================================== *)
(** ** The interpreter state the script acts on *)
(* ===================================================================== *)

(** Values handed to [json.dump]. *)
Inductive pyvalue : Type :=
| PyStr (s : string)
| PyList (l : list pyvalue)
| PyDict (d : list (string * pyvalue)).

(** What pyplot has drawn on a figure. *)
Inductive artist : Type :=
| NetworkxNodes (nodelist : list string) (node_color : string)
    (node_size : nat) (alpha : Q) (label : string)
| NetworkxEdges (edgelist : list (string * string)) (width alpha : Q)
| NetworkxLabels (labels : list string) (font_size : nat) (font_family : string)
| Title (text : string) (fontsize : nat)
| Legend (fontsize : nat)
| Axis (option : string).

Record Figure : Type := mkFigure {
  figsize : Q * Q;
  artists : list artist
}.

Inductive file : Type :=
| ImageFile (fig : Figure) (dpi : nat) (bbox_inches : string)
| JsonFile (data : pyvalue) (indent : nat).

(** The module-level tables. *)
Record module_globals : Type := mkGlobals {
  CATEGORIES : dict string;
  PATTERN_RELATIONSHIPS : dict (list string);
  PATTERN_CATEGORIES : dict string
}.

(** Module globals, pyplot's figure stack (current figure first), the
    figures handed to [plt.show], the files written and standard output. *)
Record world : Type := mkWorld {
  globals : module_globals;
  figures : list Figure;
  shown : list Figure;
  files : dict file;
  stdout : list string
}.

(** State and exceptions. *)
Definition M (A : Type) : Type := world -> result A * world.

Definition ret {A} (a : A) : M A := fun w => (Ok a, w).

Definition bind {A B} (c : M A) (k : A -> M B) : M B :=
  fun w =>
    match c w with
    | (Ok a, w') => k a w'
    | (Raise e, w') => (Raise e, w')
    end.

Definition lift {A} (r : result A) : M A := fun w => (r, w).

Declare Scope py_scope.
Delimit Scope py_scope with py.
Notation "x <- c ;; k" := (bind c (fun x => k))
  (at level 61, c at next level, right associativity) : py_scope.
Notation "c ;; k" := (bind c (fun _ => k))
  (at level 61, right associativity) : py_scope.
Local Open Scope py_scope.

Definition read_globals : M module_globals := fun w => (Ok (globals w), w).

(** [for x in l: body(x)] for a body with effects. *)
Fixpoint for_each {A} (l : list A) (body : A -> M unit) : M unit :=
  match l with
  | [] => ret tt
  | x :: l' => body x ;; for_each l' body
  end.

Definition print (line : string) : M unit :=
  fun w => (Ok tt, {| globals := globals w; figures := figures w;
                      shown := shown w; files := files w;
                      stdout := stdout w ++ [line] |}).

Definition write_file (path : string) (f : file) : M unit :=
  fun w => (Ok tt, {| globals := globals w; figures := figures w;
                      shown := shown w; files := dict_set path f (files w);
                      stdout := stdout w |}).

(** [with open(output_file, 'w') as f: json.dump(data, f, indent=...)] *)
Definition json_dump (data : pyvalue) (path : string) (indent : nat) : M unit :=
  write_file path (JsonFile data indent).

Module plt.

(** [plt.figure(figsize=...)] opens a figure and makes it current. *)
Definition figure (size : Q * Q) : M unit :=
  fun w => (Ok tt, {| globals := globals w;
                      figures := {| figsize := size; artists := [] |} :: figures w;
                      shown := shown w; files := files w; stdout := stdout w |}).

(** [plt.gcf()]: the current figure, opened with the default size when
    there is none. *)
Definition gcf (figs : list Figure) : Figure * list Figure :=
  match figs with
  | f :: fs => (f, fs)
  | [] => ({| figsize := (64 # 10, 48 # 10); artists := [] |}, [])
  end.

(** Drawing goes to the current figure. *)
Definition draw (a : artist) : M unit :=
  fun w =>
    let (f, fs) := gcf (figures w) in
    (Ok tt, {| globals := globals w;
               figures := {| figsize := figsize f;
                             artists := artists f ++ [a] |} :: fs;
               shown := shown w; files := files w; stdout := stdout w |}).

Definition title (text : string) (fontsize : nat) : M unit :=
  draw (Title text fontsize).
Definition legend (fontsize : nat) : M unit := draw (Legend fontsize).
Definition axis (option : string) : M unit := draw (Axis option).

(** [plt.savefig(path, dpi=..., bbox_inches=...)] writes the current
    figure. *)
Definition savefig (path : string) (dpi : nat) (bbox_inches : string) : M unit :=
  fun w =>
    let (f, fs) := gcf (figures w) in
    (Ok tt, {| globals := globals w; figures := f :: fs; shown := shown w;
               files := dict_set path (ImageFile f dpi bbox_inches) (files w);
               stdout := stdout w |}).

(** [plt.show()] hands every open figure to the display. *)
Definition show : M unit :=
  fun w => (Ok tt, {| globals := globals w; figures := figures w;
                      shown := shown w ++ figures w;
                      files := files w; stdout := stdout w |}).

End plt.

(* ===================================================================== *)
(** ** pattern_network_visualizer.py *)
(* ===================================================================== *)

(** The module as loaded: the three dictionary displays of the script. *)
Definition script_globals : module_globals := {|
  CATEGORIES := dict_display [
    ("Structural", "blue");
    ("Process", "green");
    ("Relationship", "red");
    ("Resilience", "purple")];
  PATTERN_RELATIONSHIPS := dict_display [
    ("Fractal Self-Similarity", ["Emergent Behavior"; "Hierarchical Organization"]);
    ("Emergent Behavior", ["Fractal Self-Similarity"; "Feedback Loops"; "Self-Organization"]);
    ("Feedback Loops", ["Emergent Behavior"; "Cyclical Patterns"; "Adaptive Capacity"]);
    ("Network Structure", ["Fractal Self-Similarity"; "Resource Distribution"]);
    ("Hierarchical Organization", ["Fractal Self-Similarity"; "Network Structure"]);
    ("Cyclical Patterns", ["Feedback Loops"; "Adaptation and Evolution"]);
    ("Resource Distribution", ["Network Structure"; "Symbiosis and Mutualism"]);
    ("Adaptation and Evolution", ["Cyclical Patterns"; "Feedback Loops"]);
    ("Symbiosis and Mutualism", ["Resource Distribution"; "Adaptation and Evolution"]);
    ("Boundaries and Interfaces", ["Symbiosis and Mutualism"; "Hierarchical Organization"])];
  PATTERN_CATEGORIES := dict_display [
    ("Fractal Self-Similarity", "Structural");
    ("Emergent Behavior", "Process");
    ("Feedback Loops", "Process");
    ("Network Structure", "Structural");
    ("Hierarchical Organization", "Structural");
    ("Cyclical Patterns", "Process");
    ("Resource Distribution", "Relationship");
    ("Adaptation and Evolution", "Process");
    ("Symbiosis and Mutualism", "Relationship");
    ("Boundaries and Interfaces", "Resilience")]
|}.

Definition initial_world : world := {|
  globals := script_globals; figures := []; shown := []; files := []; stdout := []
|}.

(** The edge loop of [create_pattern_network] for one relationship entry. *)
Definition add_related (categories : dict string) (pattern : string)
  (related_patterns : list string) (G : nx.Graph) : result nx.Graph :=
  for_in related_patterns
    (fun related G =>
       if dict_mem related categories then nx.add_edge G pattern related
       else Ok G)
    G.

(** The node loop of [create_pattern_network]. *)
Definition add_pattern_nodes (categories : dict string) (G : nx.Graph)
  : result nx.Graph :=
  for_in (items categories)
    (fun pc G => Ok (nx.add_node G (fst pc) [("category", snd pc)]))
    G.

(** The edge loop of [create_pattern_network]. *)
Definition add_pattern_edges (categories : dict string)
  (relationships : dict (list string)) (G : nx.Graph) : result nx.Graph :=
  for_in (items relationships)
    (fun pr G =>
       if dict_mem (fst pr) categories
       then add_related categories (fst pr) (snd pr) G
       else Ok G)
    G.

(** [create_pattern_network()] *)
Definition create_pattern_network : M nx.Graph :=
  g <- read_globals ;;
  lift (
    let G := nx.empty_graph in
    rbind (add_pattern_nodes (PATTERN_CATEGORIES g) G) (fun G =>
    rbind (add_pattern_edges (PATTERN_CATEGORIES g) (PATTERN_RELATIONSHIPS g) G) (fun G =>
    Ok G))).

(** Truth value of the [output_file] argument: [None] and the empty string
    are false, every other string or path is true. *)
Definition truthy (output_file : option string) : bool :=
  match output_file with
  | None => false
  | Some s => negb (String.eqb s "")
  end.

(** [str(output_file)] inside an f-string. *)
Definition str (output_file : option string) : string :=
  match output_file with
  | None => "None"
  | Some s => s
  end.

(** [[node for node, data in G.nodes(data=True)
      if data.get("category") == category]] *)
Definition nodes_of_category (G : nx.Graph) (category : string) : list string :=
  map fst
    (filter (fun nd =>
       match dict_get "category" (snd nd) with
       | Some c => String.eqb c category
       | None => false
       end)
     (nx.nodes_data G)).

(** [visualize_pattern_network(G, output_file=None)].  The positions that
    [nx.spring_layout(G, seed=42, k=0.3)] computes only place the artists
    and are not part of the state. *)
Definition visualize_pattern_network (G : nx.Graph) (output_file : option string)
  : M unit :=
  plt.figure (16 # 1, 12 # 1) ;;
  g <- read_globals ;;
  for_each (items (CATEGORIES g))
    (fun cc =>
       let node_list := nodes_of_category G (fst cc) in
       plt.draw (NetworkxNodes node_list (snd cc) 2000 (8 # 10) (fst cc))) ;;
  plt.draw (NetworkxEdges (nx.edges G) (15 # 10) (7 # 10)) ;;
  plt.draw (NetworkxLabels (keys (nx._node G)) 10 "sans-serif") ;;
  plt.title "Pattern Relationship Network" 20 ;;
  plt.legend 12 ;;
  plt.axis "off" ;;
  if truthy output_file then
    plt.savefig (str output_file) 300 "tight" ;;
    print ("Network visualization saved to " ++ str output_file)
  else
    plt.show.

(** [data[key].append(item)] *)
Definition append_to (data : dict pyvalue) (key : string) (item : pyvalue)
  : result (dict pyvalue) :=
  rbind (subscript data key) (fun l =>
  match l with
  | PyList xs => Ok (dict_set key (PyList (xs ++ [item])) data)
  | _ => Raise (AttributeError "append")
  end).

(** [save_network_data(G, output_file)] *)
Definition save_network_data (G : nx.Graph) (output_file : string) : M unit :=
  let data := dict_display [("nodes", PyList []); ("links", PyList [])] in
  data <- lift (for_in (nx.nodes_data G)
            (fun na data =>
               append_to data "nodes"
                 (PyDict (dict_display [
                    ("id", PyStr (fst na));
                    ("category",
                     PyStr (dict_get_default "category" "Unknown" (snd na)))])))
            data) ;;
  data <- lift (for_in (nx.edges G)
            (fun st data =>
               append_to data "links"
                 (PyDict (dict_display [
                    ("source", PyStr (fst st));
                    ("target", PyStr (snd st))])))
            data) ;;
  json_dump (PyDict data) output_file 2 ;;
  print ("Network data saved to " ++ output_file).

(** Running an action from a given state. *)
Definition run {A} (c : M A) (w : world) : result A * world := c w.

Definition built_graph (w : world) : result nx.Graph :=
  fst (run create_pattern_network w).

(** The node object and the link object that [save_network_data] appends. *)
Definition node_object (na : string * nx.attr_dict) : pyvalue :=
  PyDict (dict_display [
    ("id", PyStr (fst na));
    ("category", PyStr (dict_get_default "category" "Unknown" (snd na)))]).

Definition link_object (st : string * string) : pyvalue :=
  PyDict (dict_display [("source", PyStr (fst st)); ("target", PyStr (snd st))]).

(** Reading a JSON document back: the keys of an object, a field of an
    object, and whether a link object joins [u] and [v]. *)
Definition object_keys (v : pyvalue) : option (list string) :=
  match v with
  | PyDict d => Some (keys d)
  | _ => None
  end.

Definition field (k : string) (v : pyvalue) : option pyvalue :=
  match v with
  | PyDict d => dict_get k d
  | _ => None
  end.

Definition link_joins (u v : string) (x : pyvalue) : bool :=
  match field "source" x, field "target" x with
  | Some (PyStr s), Some (PyStr t) => nx.joins u v (s, t)
  | _, _ => false
  end.

(* ===================================================================== *)
(** ** Notions the properties are stated with *)
(* ===================================================================== *)

Section BuiltGraph.
Import nx.
Variable categories : dict string.
Variable relationships : dict (list string).

(** [u]'s relationship list names [v]. *)
Definition declared (u v : string) : Prop :=
  exists l, In (u, l) relationships /\ In v l.

(** Later graphs keep the nodes, respectively the edges, of earlier ones. *)
Definition nodes_kept (G G' : Graph) : Prop :=
  forall n, dict_mem n (_node G) = true -> dict_mem n (_node G') = true.

Definition edges_kept (G G' : Graph) : Prop :=
  forall u v, has_edge G u v = true -> has_edge G' u v = true.

(** Every node carries exactly the attribute [category], with a category
    the table declares for it. *)
Definition categorized (G : Graph) : Prop :=
  forall n attrs, dict_get n (_node G) = Some attrs ->
    exists c, attrs = [("category", c)] /\ In (n, c) categories.

Definition edgeless (G : Graph) : Prop := forall u v, has_edge G u v = false.

(** Every edge joins two categorized patterns, one of which lists the
    other. *)
Definition justified (G : Graph) : Prop :=
  forall u v, has_edge G u v = true ->
    dict_mem u categories = true /\ dict_mem v categories = true /\
    (declared u v \/ declared v u).

(** What the edge loop maintains, starting from the graph [G0]. *)
Definition edge_inv (G0 G : Graph) : Prop :=
  WF G /\ _node G = _node G0 /\ justified G.

(** What [create_pattern_network] builds from two tables. *)
Record built (G : Graph) : Prop := mkBuilt {
  built_wf : WF G;
  built_nodes : forall n, dict_mem n (_node G) = dict_mem n categories;
  built_categorized : categorized G;
  built_justified : justified G;
  built_complete : forall p l r, In (p, l) relationships -> In r l ->
      dict_mem p categories = true -> dict_mem r categories = true ->
      has_edge G p r = true
}.

End BuiltGraph.

(** The document [save_network_data] dumps for [G]. *)
Definition document (G : nx.Graph) : pyvalue :=
  PyDict [("nodes", PyList (map node_object (nx.nodes_data G)));
          ("links", PyList (map link_object (nx.edges G)))].

(** Drawing changes the current figure and nothing else. *)
Definition drawn (w : world) (f : Figure) (fs : list Figure) (new : list artist) : world :=
  {| globals := globals w;
     figures := {| figsize := figsize f; artists := artists f ++ new |} :: fs;
     shown := shown w; files := files w; stdout := stdout w |}.

(** The artists [visualize_pattern_network] puts on its figure. *)
Definition network_artists (g : module_globals) (G : nx.Graph) : list artist :=
  map (fun cc => NetworkxNodes (nodes_of_category G (fst cc)) (snd cc) 2000 (8 # 10) (fst cc))
      (items (CATEGORIES g))
  ++ [NetworkxEdges (nx.edges G) (15 # 10) (7 # 10);
      NetworkxLabels (keys (nx._node G)) 10 "sans-serif";
      Title "Pattern Relationship Network" 20;
      Legend 12;
      Axis "off"].

Definition network_figure (g : module_globals) (G : nx.Graph) : Figure :=
  {| figsize := (16 # 1, 12 # 1); artists := network_artists g G |}.

(** The tables of the two-pattern scenario. *)
Definition scenario_globals : module_globals := {|
  CATEGORIES := CATEGORIES script_globals;
  PATTERN_RELATIONSHIPS := dict_display [("A", ["B"]); ("B", ["A"])];
  PATTERN_CATEGORIES := dict_display [("A", "Structural"); ("B", "Process")]
|}.

Definition scenario_world : world := {|
  globals := scenario_globals; figures := []; shown := []; files := []; stdout := []
|}.

(** The graph of the two-pattern scenario. *)
Definition scenario_graph : nx.Graph := {|
  nx._node := [("A", [("category", "Structural")]); ("B", [("category", "Process")])];
  nx._adj := [("A", [("B", [])]); ("B", [("A", [])])]
|}.

(** The state after the script has built its graph and exported it. *)
Definition exported_world : world :=
  snd (run (G <- create_pattern_network ;;
            save_network_data G "docs/visualizations/pattern_network.json")
         initial_world).

(** A table with a relationship to the uncategorized pattern ["Z"]. *)
Definition dangling_world (categories : dict string) : world := {|
  globals := {| CATEGORIES := CATEGORIES script_globals;
                PATTERN_RELATIONSHIPS := dict_display [("A", ["Z"])];
                PATTERN_CATEGORIES := categories |};
  figures := []; shown := []; files := []; stdout := []
|}.

(** The [nodes] and [links] arrays of the file [save_network_data] leaves at
    [output_file]. *)
Definition exported (G : nx.Graph) (output_file : string) (w : world)
  : option (list pyvalue * list pyvalue) :=
  match dict_get output_file (files (snd (run (save_network_data G output_file) w))) with
  | Some (JsonFile doc _) =>
      match field "nodes" doc, field "links" doc with
      | Some (PyList nodes), Some (PyList links) => Some (nodes, links)
      | _, _ => None
      end
  | _ => None
  end.

(* ===================================================================== *)
(** ** The entry point *)
(* ===================================================================== *)

(** A [pathlib] path on a POSIX system: the anchor ([""] for a relative
    path, ["/"] for an absolute one) and the parts below it. *)
Record Path : Type := mkPath {
  anchor : string;
  parts : list string
}.

(** [p.parent]: the path without its last part; a path with no part is its
    own parent. *)
Definition parent (p : Path) : Path :=
  {| anchor := anchor p; parts := removelast (parts p) |}.

(** [p / name] for a plain relative name. *)
Definition joinpath (p : Path) (name : string) : Path :=
  {| anchor := anchor p; parts := (parts p ++ [name])%list |}.

(** [str(p)] *)
Definition path_str (p : Path) : string :=
  match parts p with
  | [] => if String.eqb (anchor p) "" then "." else anchor p
  | _ => anchor p ++ String.concat "/" (parts p)
  end.

(** [str(n)] for a natural number. *)
Definition str_nat (n : nat) : string :=
  DecimalString.NilZero.string_of_uint (Nat.to_uint n).

(** The interpreter state together with the directories that exist. *)
Record system : Type := mkSystem {
  interp : world;
  directories : list string
}.

Inductive os_error : Type :=
| FileExistsError
| NotADirectoryError.

(** How a run ends: normally, by an exception of the interpreter, or by a
    fault of the file system. *)
Inductive outcome (A : Type) : Type :=
| Finished (a : A)
| Uncaught (e : exn)
| OSFault (e : os_error).
Arguments Finished {A} a.
Arguments Uncaught {A} e.
Arguments OSFault {A} e.

Definition Sys (A : Type) : Type := system -> outcome A * system.

Definition sys_bind {A B} (c : Sys A) (k : A -> Sys B) : Sys B :=
  fun s =>
    match c s with
    | (Finished a, s') => k a s'
    | (Uncaught e, s') => (Uncaught e, s')
    | (OSFault e, s') => (OSFault e, s')
    end.

(** An action of the interpreter, run inside the system. *)
Definition lift_M {A} (c : M A) : Sys A :=
  fun s =>
    match c (interp s) with
    | (Ok a, w') => (Finished a, {| interp := w'; directories := directories s |})
    | (Raise e, w') => (Uncaught e, {| interp := w'; directories := directories s |})
    end.

(** [p.is_file()] and [p.is_dir()]; the path with no part is the root or
    the working directory. *)
Definition is_file (p : Path) (s : system) : bool :=
  dict_mem (path_str p) (files (interp s)).


(** The path's ancestors below the anchor, topmost first, and the path
    itself last. *)
Definition lineage (p : Path) : list Path :=
  map (fun k => {| anchor := anchor p; parts := firstn k (parts p) |})
      (seq 1 (List.length (parts p))).

(** The directories after those of [qs] that are missing have been created,
    in order. *)
Definition made (qs : list Path) (dirs : list string) : list string :=
  fold_left (fun dirs q =>
               if existsb (String.eqb (path_str q)) dirs then dirs
               else (dirs ++ [path_str q])%list)
            qs dirs.

(** [p.mkdir(exist_ok=True, parents=True)]: every missing directory down to
    [p] is created; a regular file at [p] is a [FileExistsError], one
    above [p] a [NotADirectoryError]. *)
Definition mkdir_parents_exist_ok (p : Path) : Sys unit :=
  fun s =>
    match find (fun q => is_file q s) (lineage p) with
    | Some q =>
        (OSFault (if String.eqb (path_str q) (path_str p)
                  then FileExistsError else NotADirectoryError), s)
    | None =>
        (Finished tt,
         {| interp := interp s;
            directories := made (lineage p) (directories s) |})
    end.

(** [Path(__file__).parent.parent / "docs" / "visualizations"] *)
Definition output_dir_of (script_file : Path) : Path :=
  joinpath (joinpath (parent (parent script_file)) "docs") "visualizations".

(** [main()], for the script stored at [script_file]. *)
Definition main (script_file : Path) : Sys unit :=
  let output_dir := output_dir_of script_file in
  sys_bind (mkdir_parents_exist_ok output_dir) (fun _ =>
  lift_M (
    G <- create_pattern_network ;;
    visualize_pattern_network G
      (Some (path_str (joinpath output_dir "pattern_network.png"))) ;;
    save_network_data G (path_str (joinpath output_dir "pattern_network.json")) ;;
    print ("Network has " ++ str_nat (nx.number_of_nodes G) ++ " nodes and "
           ++ str_nat (nx.number_of_edges G) ++ " edges") ;;
    print ("Visualizations saved to " ++ path_str output_dir))).


(** Where the script lives in the repository, and the system before it
    runs. *)
Definition script_path : Path :=
  {| anchor := "";
     parts := ["complexity-science"; "pattern-recognition"; "natural-patterns";
               "src"; "pattern_network_visualizer.py"] |}.


(** Some file already sits at the output directory or above it. *)
Definition blocked (p : Path) (s : system) : bool :=
  existsb (fun q => is_file q s) (lineage p).

(** A system where a regular file has the name of the [docs] directory. *)
Definition blocked_system : system :=
  {| interp :=
       {| globals := script_globals; figures := []; shown := [];
          files := [("complexity-science/pattern-recognition/natural-patterns/docs",
                     JsonFile (PyList []) 2)];
          stdout := [] |};
     directories := [] |}.

(** Reading a document back: the name in a node object and the two ends
    in a link object. *)
Definition node_id (x : pyvalue) : option string :=
  match field "id" x with
  | Some (PyStr n) => Some n
  | _ => None
  end.

Definition link_ends (x : pyvalue) : option (string * string) :=
  match field "source" x, field "target" x with
  | Some (PyStr s), Some (PyStr t) => Some (s, t)
  | _, _ => None
  end.

(** The node lists a figure draws, with the label of each, and all the
    nodes drawn in them. *)
Definition nodelists (f : Figure) : list (string * list string) :=
  flat_map (fun a =>
              match a with
              | NetworkxNodes nodelist _ _ _ label => [(label, nodelist)]
              | _ => []
              end)
           (artists f).

Definition drawn_nodes (f : Figure) : list string :=
  List.concat (map snd (nodelists f)).

(** The labels a figure writes. *)
Definition drawn_labels (f : Figure) : list string :=
  flat_map (fun a =>
              match a with
              | NetworkxLabels labels _ _ => labels
              | _ => []
              end)
           (artists f).

(** Whether a node's attributes put it in a category that has a colour. *)
Definition coloured (g : module_globals) (attrs : nx.attr_dict) : bool :=
  match dict_get "category" attrs with
  | Some c => dict_mem c (CATEGORIES g)
  | None => false
  end.

(* ===================================================================== *)
(** ** Facts about dictionaries *)
(* ===================================================================== *)

Section DictFacts.
Context {V : Type}.
Implicit Types (d : dict V) (k : string) (v : V).

Lemma dict_get_set k k' v d :
  dict_get k (dict_set k' v d) =
  if String.eqb k k' then Some v else dict_get k d.
Proof.
  induction d as [|[k0 v0] d IH]; simpl.
  - reflexivity.
  - destruct (String.eqb_spec k' k0) as [->|Hne]; simpl.
    + destruct (String.eqb k k0); reflexivity.
    + destruct (String.eqb_spec k k0) as [->|Hne'].
      * destruct (String.eqb_spec k0 k'); congruence.
      * exact IH.
Qed.

Lemma dict_mem_set k k' v d :
  dict_mem k (dict_set k' v d) = String.eqb k k' || dict_mem k d.
Proof.
  unfold dict_mem. rewrite dict_get_set.
  destruct (String.eqb k k'); reflexivity.
Qed.

Lemma dict_mem_keys k d : dict_mem k d = true <-> In k (keys d).
Proof.
  unfold dict_mem. induction d as [|[k0 v0] d IH]; simpl.
  - split; [discriminate | tauto].
  - destruct (String.eqb_spec k k0) as [->|Hne].
    + split; auto.
    + rewrite IH. split; [auto | intros [E|H]; congruence].
Qed.

Lemma dict_mem_false_keys k d : dict_mem k d = false <-> ~ In k (keys d).
Proof.
  rewrite <- dict_mem_keys. destruct (dict_mem k d); split; congruence.
Qed.

Lemma keys_set k v d :
  keys (dict_set k v d) = if dict_mem k d then keys d else (keys d ++ [k])%list.
Proof.
  unfold dict_mem. induction d as [|[k0 v0] d IH]; simpl.
  - reflexivity.
  - destruct (String.eqb_spec k k0) as [->|Hne]; simpl.
    + reflexivity.
    + rewrite IH. destruct (dict_get k d); reflexivity.
Qed.


Lemma distinct_NoDup (l : list string) : distinct l = true <-> NoDup l.
Proof.
  induction l as [|x l IH]; simpl.
  - split; [constructor | reflexivity].
  - rewrite andb_true_iff, negb_true_iff, IH. split.
    + intros [Hx Hl]. constructor; [|exact Hl].
      intros Hin. apply not_true_iff_false in Hx. apply Hx.
      apply existsb_exists. exists x. split; [exact Hin | apply String.eqb_refl].
    + intros Hnd. inversion Hnd as [|? ? Hx Hl]; subst. split; [|exact Hl].
      apply not_true_iff_false. intros Hex.
      apply existsb_exists in Hex. destruct Hex as [y [Hy Hxy]].
      apply String.eqb_eq in Hxy. subst y. contradiction.
Qed.

Lemma dict_wf_NoDup d : dict_wf d = true <-> NoDup (keys d).
Proof. apply distinct_NoDup. Qed.

Lemma NoDup_keys_set k v d : NoDup (keys d) -> NoDup (keys (dict_set k v d)).
Proof.
  intros Hnd. rewrite keys_set. destruct (dict_mem k d) eqn:Hm.
  - exact Hnd.
  - apply dict_mem_false_keys in Hm.
    apply NoDup_app; [exact Hnd | repeat constructor; simpl; tauto |].
    intros x Hx [<-|[]]. contradiction.
Qed.

Lemma dict_get_In k v d : dict_get k d = Some v -> In (k, v) d.
Proof.
  induction d as [|[k0 v0] d IH]; simpl; [discriminate|].
  destruct (String.eqb_spec k k0) as [->|Hne].
  - intros [= ->]. auto.
  - auto.
Qed.

Lemma In_dict_get k v d : NoDup (keys d) -> In (k, v) d -> dict_get k d = Some v.
Proof.
  induction d as [|[k0 v0] d IH]; simpl; [tauto|].
  intros Hnd [E|Hin].
  - injection E as -> ->. rewrite String.eqb_refl. reflexivity.
  - inversion Hnd as [|? ? Hk0 Hd]; subst.
    destruct (String.eqb_spec k k0) as [->|Hne].
    + exfalso. apply Hk0. change (In (fst (k0, v)) (map fst d)).
      apply in_map. exact Hin.
    + auto.
Qed.

Lemma dict_mem_get k d : dict_mem k d = true <-> exists v, dict_get k d = Some v.
Proof.
  unfold dict_mem. destruct (dict_get k d) as [v|].
  - split; eauto.
  - split; [discriminate | intros [v Hv]; discriminate].
Qed.

End DictFacts.

(* ===================================================================== *)
(** ** Facts about [for_in] *)
(* ===================================================================== *)

Section ForIn.
Context {A S : Type}.
Variable body : A -> S -> result S.
(** [Inv] holds at every iteration, [R] relates a state to every later
    one, and [Post x] is what the iteration for [x] establishes. *)
Variable Inv : S -> Prop.
Variable R : S -> S -> Prop.
Variable Post : A -> S -> Prop.
Hypothesis R_refl : forall s, R s s.
Hypothesis R_trans : forall s1 s2 s3, R s1 s2 -> R s2 s3 -> R s1 s3.
Hypothesis Post_stable : forall x s s', R s s' -> Post x s -> Post x s'.

Lemma for_in_spec (l : list A) :
  (forall x s, In x l -> Inv s ->
     exists s', body x s = Ok s' /\ Inv s' /\ R s s' /\ Post x s') ->
  forall s, Inv s ->
    exists s', for_in l body s = Ok s' /\ Inv s' /\ R s s' /\
               forall x, In x l -> Post x s'.
Proof.
  induction l as [|a l IH]; intros Hstep s Hs; simpl.
  - exists s. repeat split; auto. intros x [].
  - destruct (Hstep a s (or_introl eq_refl) Hs) as [s1 [E1 [I1 [R1 P1]]]].
    rewrite E1.
    destruct (IH (fun x s0 Hx => Hstep x s0 (or_intror Hx)) s1 I1)
      as [s2 [E2 [I2 [R2 P2]]]].
    exists s2. repeat split; eauto.
    intros x [<-|Hx]; eauto.
Qed.

End ForIn.

(* ===================================================================== *)
(** ** Facts about graphs *)
(* ===================================================================== *)

Module nxFacts.
Import nx.


Lemma list_eqb_eq (l1 l2 : list string) : list_eqb l1 l2 = true <-> l1 = l2.
Proof.
  unfold list_eqb. destruct (list_eq_dec string_dec l1 l2); split; congruence.
Qed.

Lemma graph_wf_WF (G : Graph) : graph_wf G = true <-> WF G.
Proof.
  unfold graph_wf. rewrite !andb_true_iff, dict_wf_NoDup, list_eqb_eq, forallb_forall.
  split.
  - intros [[Hn Hk] Hall]. split; auto.
    + intros n nbrs Hget. apply dict_get_In in Hget.
      apply Hall in Hget. simpl in Hget. apply andb_true_iff in Hget.
      apply dict_wf_NoDup. tauto.
    + intros u v Huv. unfold has_edge in Huv.
      destruct (dict_get u (_adj G)) as [nbrs|] eqn:Hget; [|discriminate].
      apply dict_get_In in Hget. apply Hall in Hget. simpl in Hget.
      apply andb_true_iff in Hget. destruct Hget as [_ Hs].
      rewrite forallb_forall in Hs. apply Hs. apply dict_mem_keys. exact Huv.
  - intros [Hn Hk Hnb Hsym]. repeat split; auto.
    intros [n nbrs] Hin. simpl.
    assert (Hget : dict_get n (_adj G) = Some nbrs).
    { apply In_dict_get; [rewrite Hk; exact Hn | exact Hin]. }
    apply andb_true_iff. split.
    + apply dict_wf_NoDup. eauto.
    + apply forallb_forall. intros nbr Hnbr. apply Hsym.
      unfold has_edge. rewrite Hget. apply dict_mem_keys. exact Hnbr.
Qed.

Lemma WF_empty : WF empty_graph.
Proof.
  split; simpl; auto.
  - constructor.
  - discriminate.
Qed.

Lemma WF_adj_mem (G : Graph) (n : string) :
  WF G -> dict_mem n (_adj G) = dict_mem n (_node G).
Proof.
  intros H. apply eq_true_iff_eq. rewrite !dict_mem_keys, (wf_adj_keys H). tauto.
Qed.

Lemma has_edge_mem_l (G : Graph) (u v : string) :
  has_edge G u v = true -> dict_mem u (_adj G) = true.
Proof.
  unfold has_edge, dict_mem. destruct (dict_get u (_adj G)); congruence.
Qed.

(** Adding a fresh key with no neighbours leaves adjacency as it was. *)
Lemma has_edge_fresh (G : Graph) (n : string) (N : dict attr_dict) (a b : string) :
  dict_mem n (_adj G) = false ->
  has_edge {| _node := N; _adj := dict_set n [] (_adj G) |} a b = has_edge G a b.
Proof.
  intros Hn. unfold has_edge. simpl. rewrite dict_get_set.
  destruct (String.eqb_spec a n) as [->|Hne]; [|reflexivity].
  unfold dict_mem in Hn. destruct (dict_get n (_adj G)); [discriminate|reflexivity].
Qed.

Lemma WF_fresh (G : Graph) (n : string) (attrs : attr_dict) :
  WF G -> dict_mem n (_node G) = false ->
  WF {| _node := dict_set n attrs (_node G); _adj := dict_set n [] (_adj G) |}.
Proof.
  intros H Hn.
  assert (Hn' : dict_mem n (_adj G) = false) by (rewrite WF_adj_mem; auto).
  split; simpl.
  - apply NoDup_keys_set, H.
  - rewrite !keys_set, Hn, Hn', (wf_adj_keys H). reflexivity.
  - intros m nbrs. rewrite dict_get_set. destruct (String.eqb m n).
    + intros [= <-]. constructor.
    + apply (wf_nbrs H).
  - intros u v. rewrite !has_edge_fresh by exact Hn'. apply (wf_sym H).
Qed.

Lemma add_node_WF (G : Graph) (n : string) (attr : attr_dict) :
  WF G -> WF (add_node G n attr).
Proof.
  intros H. unfold add_node.
  destruct (dict_get n (_node G)) as [old|] eqn:Hget.
  - split; simpl.
    + apply NoDup_keys_set, H.
    + rewrite keys_set.
      replace (dict_mem n (_node G)) with true
        by (symmetry; apply dict_mem_get; eauto).
      apply H.
    + apply (wf_nbrs H).
    + apply (wf_sym H).
  - apply WF_fresh; [exact H|]. unfold dict_mem. rewrite Hget. reflexivity.
Qed.

Lemma add_node_has_edge (G : Graph) (n : string) (attr : attr_dict) (a b : string) :
  WF G -> has_edge (add_node G n attr) a b = has_edge G a b.
Proof.
  intros H. unfold add_node.
  destruct (dict_get n (_node G)) as [old|] eqn:Hget.
  - reflexivity.
  - apply has_edge_fresh. rewrite WF_adj_mem by exact H.
    unfold dict_mem. rewrite Hget. reflexivity.
Qed.

Lemma add_node_get (G : Graph) (n : string) (attr : attr_dict) (m : string) :
  dict_get m (_node (add_node G n attr)) =
  if String.eqb m n
  then Some (dict_update (match dict_get n (_node G) with
                          | Some old => old | None => [] end) attr)
  else dict_get m (_node G).
Proof.
  unfold add_node. destruct (dict_get n (_node G)); simpl; apply dict_get_set.
Qed.

Lemma touch_node_WF (G : Graph) (u : string) : WF G -> WF (touch_node G u).
Proof.
  intros H. unfold touch_node. destruct (dict_mem u (_node G)) eqn:Hu.
  - exact H.
  - apply WF_fresh; assumption.
Qed.

Lemma touch_node_has_edge (G : Graph) (u a b : string) :
  WF G -> has_edge (touch_node G u) a b = has_edge G a b.
Proof.
  intros H. unfold touch_node. destruct (dict_mem u (_node G)) eqn:Hu.
  - reflexivity.
  - apply has_edge_fresh. rewrite WF_adj_mem; assumption.
Qed.

Lemma touch_node_mem (G : Graph) (u n : string) :
  dict_mem n (_node (touch_node G u)) = String.eqb n u || dict_mem n (_node G).
Proof.
  unfold touch_node. destruct (dict_mem u (_node G)) eqn:Hu; simpl.
  - destruct (String.eqb_spec n u) as [->|]; [rewrite Hu|]; reflexivity.
  - apply dict_mem_set.
Qed.

Lemma touch_node_id (G : Graph) (u : string) :
  dict_mem u (_node G) = true -> touch_node G u = G.
Proof. intros Hu. unfold touch_node. rewrite Hu. reflexivity. Qed.

(** [add_edge] on a well-formed graph: it returns, the result is well
    formed, its nodes are those of the graph with both endpoints created,
    and adjacency gains exactly the pair, in both directions. *)
Lemma add_edge_spec (G : Graph) (u v : string) :
  WF G ->
  exists G', add_edge G u v = Ok G' /\ WF G' /\
    _node G' = _node (touch_node (touch_node G u) v) /\
    forall a b, has_edge G' a b =
      has_edge G a b || String.eqb a u && String.eqb b v
                     || String.eqb a v && String.eqb b u.
Proof.
  intros H. unfold add_edge.
  set (G1 := touch_node (touch_node G u) v).
  assert (H1 : WF G1) by (apply touch_node_WF, touch_node_WF, H).
  assert (Hu : dict_mem u (_adj G1) = true).
  { rewrite WF_adj_mem by exact H1. unfold G1. rewrite !touch_node_mem.
    rewrite String.eqb_refl. apply orb_true_r. }
  assert (Hv : dict_mem v (_adj G1) = true).
  { rewrite WF_adj_mem by exact H1. unfold G1. rewrite !touch_node_mem.
    rewrite String.eqb_refl. reflexivity. }
  assert (HE : forall a b, has_edge G1 a b = has_edge G a b).
  { intros a b. unfold G1. rewrite !touch_node_has_edge; auto using touch_node_WF. }
  apply dict_mem_get in Hu. destruct Hu as [adj_u Hu].
  apply dict_mem_get in Hv. destruct Hv as [adj_v0 Hv].
  unfold subscript. rewrite Hu. simpl. rewrite dict_get_set.
  set (dd := dict_get_default v [] adj_u).
  unfold attr_dict, dict in *.
  match goal with
  | |- context [match ?x with Some _ => _ | None => _ end] =>
      destruct x as [adj_v|] eqn:Hv2
  end.
  2: { rewrite Hv in Hv2. destruct (String.eqb v u); discriminate. }
  simpl. eexists. split; [reflexivity|].
  assert (Hmem_v : forall b, dict_mem b adj_v =
            if String.eqb v u then String.eqb b v || dict_mem b adj_u
            else dict_mem b adj_v0).
  { intros b. rewrite Hv in Hv2. destruct (String.eqb v u).
    - injection Hv2 as <-. apply dict_mem_set.
    - injection Hv2 as <-. reflexivity. }
  assert (Hnd_v : NoDup (keys adj_v)).
  { rewrite Hv in Hv2. destruct (String.eqb v u); injection Hv2 as <-.
    - apply NoDup_keys_set. eapply (wf_nbrs H1); eauto.
    - eapply (wf_nbrs H1); eauto. }
  assert (Hedge : forall a b,
    has_edge {| _node := _node G1;
                _adj := dict_set v (dict_set u dd adj_v)
                          (dict_set u (dict_set v dd adj_u) (_adj G1)) |} a b =
    has_edge G a b || String.eqb a u && String.eqb b v
                   || String.eqb a v && String.eqb b u).
  { intros a b. rewrite <- HE. unfold has_edge. simpl.
    rewrite !dict_get_set. unfold attr_dict, dict in *.
    destruct (String.eqb_spec a v) as [->|Hav].
    - rewrite Hv, dict_mem_set, Hmem_v.
      destruct (String.eqb_spec v u) as [->|Hvu].
      + rewrite Hu in Hv. injection Hv as <-.
        destruct (String.eqb b u), (dict_mem b adj_u); reflexivity.
      + destruct (String.eqb b u), (dict_mem b adj_v0); reflexivity.
    - destruct (String.eqb_spec a u) as [->|Hau].
      + rewrite Hu, dict_mem_set.
        destruct (String.eqb b v), (dict_mem b adj_u); reflexivity.
      + simpl. rewrite !orb_false_r. reflexivity. }
  split; [|split; [reflexivity | exact Hedge]].
  split; simpl.
  - apply H1.
  - rewrite !keys_set, !dict_mem_set.
    replace (dict_mem u (_adj G1)) with true by (symmetry; apply dict_mem_get; eauto).
    replace (dict_mem v (_adj G1)) with true by (symmetry; apply dict_mem_get; eauto).
    rewrite orb_true_r. apply H1.
  - intros n nbrs. rewrite !dict_get_set.
    destruct (String.eqb n v).
    + intros [= <-]. apply NoDup_keys_set. exact Hnd_v.
    + destruct (String.eqb n u).
      * intros [= <-]. apply NoDup_keys_set. eapply (wf_nbrs H1); eauto.
      * apply (wf_nbrs H1).
  - intros a b. rewrite !Hedge. rewrite !orb_true_iff, !andb_true_iff.
    intros [[Hab|Hab]|Hab]; [|tauto|tauto]. left. left. apply (wf_sym H), Hab.
Qed.

(** Between two nodes of the graph [add_edge] creates no node. *)
Lemma add_edge_nodes (G : Graph) (u v : string) :
  dict_mem u (_node G) = true -> dict_mem v (_node G) = true ->
  _node (touch_node (touch_node G u) v) = _node G.
Proof.
  intros Hu Hv. rewrite (touch_node_id G u Hu), (touch_node_id G v Hv). reflexivity.
Qed.

(** *** Counting in duplicate-free lists *)


Lemma memb_In (x : string) (l : list string) : memb x l = true <-> In x l.
Proof.
  unfold memb. rewrite existsb_exists. split.
  - intros [y [Hy E]]. apply String.eqb_eq in E. subst. exact Hy.
  - intros Hx. exists x. split; [exact Hx | apply String.eqb_refl].
Qed.

Lemma memb_false (x : string) (l : list string) : memb x l = false <-> ~ In x l.
Proof. rewrite <- memb_In. destruct (memb x l); split; congruence. Qed.

Lemma dict_mem_memb {V} (k : string) (d : dict V) : dict_mem k d = memb k (keys d).
Proof. apply eq_true_iff_eq. rewrite dict_mem_keys, memb_In. tauto. Qed.

(** A key occurs at most once among distinct keys. *)
Lemma count_key (q : string -> bool) (n : string) (l : list string) :
  NoDup l -> q n = false ->
  List.length (filter (fun x => String.eqb x n || q x) l) =
  (if memb n l then 1 else 0) + List.length (filter q l).
Proof.
  intros Hnd Hq. induction Hnd as [|a l Ha Hnd IH]; simpl; [reflexivity|].
  rewrite (String.eqb_sym n a).
  destruct (String.eqb_spec a n) as [->|Hne]; simpl.
  - rewrite Hq, IH. apply memb_false in Ha. rewrite Ha. reflexivity.
  - destruct (q a); simpl; rewrite IH; destruct (memb n l); lia.
Qed.

Lemma count_swap (l1 l2 : list string) :
  NoDup l1 -> NoDup l2 ->
  List.length (filter (fun x => memb x l2) l1) =
  List.length (filter (fun x => memb x l1) l2).
Proof.
  intros H1 H2. induction H1 as [|a l1 Ha H1 IH]; simpl.
  - induction l2 as [|b l2 IH2]; simpl; [reflexivity|].
    inversion H2; subst. auto.
  - assert (E : List.length (filter (fun x => String.eqb x a || memb x l1) l2) =
                (if memb a l2 then 1 else 0) +
                List.length (filter (fun x => memb x l1) l2)).
    { apply count_key; [exact H2 | apply memb_false; exact Ha]. }
    rewrite E, <- IH. destruct (memb a l2); reflexivity.
Qed.

(** *** What [edges_iter] enumerates *)


(** Marking [n] as seen removes at most [n] from the unseen neighbours. *)
Lemma unseen_mark (seen : dict nat) (n : string) (l : list string) :
  NoDup l -> dict_mem n seen = false ->
  List.length (unseen seen l) =
  List.length (unseen (dict_set n 1 seen) l) + (if memb n l then 1 else 0).
Proof.
  intros Hnd Hn. unfold unseen.
  induction Hnd as [|a l Ha Hnd IH]; simpl; [reflexivity|].
  rewrite dict_mem_set, (String.eqb_sym n a).
  destruct (String.eqb_spec a n) as [->|Hne]; simpl.
  - rewrite Hn. simpl. rewrite IH. apply memb_false in Ha. rewrite Ha. lia.
  - destruct (dict_mem a seen); simpl; rewrite IH; lia.
Qed.


Lemma Enum_step seen n nbrs rest :
  Enum seen ((n, nbrs) :: rest) -> Enum (dict_set n 1 seen) rest.
Proof.
  intros [Hnd Hdisj Hnb Hcl Hsym]. simpl in Hnd.
  inversion Hnd as [|? ? Hn Hnd']; subst. split.
  - exact Hnd'.
  - intros k Hk. rewrite dict_mem_set.
    destruct (String.eqb_spec k n) as [->|Hne]; [contradiction|].
    apply Hdisj. right. exact Hk.
  - intros m mbrs Hm. apply (Hnb m). right. exact Hm.
  - intros m mbrs x Hm Hx. rewrite dict_mem_set.
    destruct (String.eqb_spec x n) as [->|Hne]; [left; reflexivity|].
    destruct (Hcl m mbrs x (or_intror Hm) Hx) as [Hs|[E|Hr]];
      [auto | simpl in E; congruence | auto].
  - intros a abrs b bbrs Ha Hb. apply Hsym; right; assumption.
Qed.

Lemma Enum_of_WF (G : Graph) : WF G -> Enum [] (items (_adj G)).
Proof.
  intros H.
  assert (Hnd : NoDup (keys (_adj G))) by (rewrite (wf_adj_keys H); apply H).
  assert (Hget : forall n nbrs, In (n, nbrs) (_adj G) ->
                   dict_get n (_adj G) = Some nbrs).
  { intros n nbrs. apply In_dict_get, Hnd. }
  assert (Hedge : forall n nbrs x, In (n, nbrs) (_adj G) -> In x (keys nbrs) ->
                    has_edge G n x = true).
  { intros n nbrs x Hin Hx. unfold has_edge. rewrite (Hget _ _ Hin).
    apply dict_mem_keys, Hx. }
  unfold items. split.
  - exact Hnd.
  - reflexivity.
  - intros n nbrs Hin. apply (wf_nbrs H n), Hget, Hin.
  - intros n nbrs x Hin Hx. right.
    apply dict_mem_keys, has_edge_mem_l with (v := n), (wf_sym H), (Hedge _ _ _ Hin Hx).
  - intros a abrs b bbrs Ha Hb Hab.
    pose proof (wf_sym H _ _ (Hedge _ _ _ Ha Hab)) as Hba.
    unfold has_edge in Hba. rewrite (Hget _ _ Hb) in Hba.
    apply dict_mem_keys, Hba.
Qed.

(** Every enumerated pair starts at a remaining node and ends at an
    unseen neighbour of it. *)
Lemma edges_iter_In seen rest u v :
  In (u, v) (edges_iter seen rest) ->
  dict_mem v seen = false /\ exists nbrs, In (u, nbrs) rest /\ In v (keys nbrs).
Proof.
  revert seen. induction rest as [|[n nbrs] rest IH]; intros seen; simpl; [tauto|].
  rewrite in_app_iff, in_map_iff. intros [[x [E Hx]]|Hin].
  - injection E as <- <-. apply filter_In in Hx. destruct Hx as [Hx Hs].
    apply negb_true_iff in Hs. eauto.
  - apply IH in Hin. destruct Hin as [Hs [mbrs [Hm Hv]]].
    rewrite dict_mem_set in Hs. apply orb_false_iff in Hs. split; [tauto|].
    eauto.
Qed.

(** *** The number of enumerated edges *)


Lemma degree_sum_mark seen n rest :
  (forall m mbrs, In (m, mbrs) rest -> NoDup (keys mbrs)) ->
  dict_mem n seen = false ->
  degree_sum seen rest =
  degree_sum (dict_set n 1 seen) rest
  + List.length (filter (fun mm => memb n (keys (snd mm))) rest).
Proof.
  intros Hnb Hn. unfold degree_sum.
  induction rest as [|[m mbrs] rest IH]; simpl; [reflexivity|].
  rewrite IH by (intros; eapply Hnb; right; eauto).
  rewrite (@unseen_mark seen n (keys mbrs));
    [|eapply Hnb; left; reflexivity | exact Hn].
  destruct (memb n (keys mbrs)); simpl; lia.
Qed.

Lemma filter_keys {V} (p : string -> bool) (d : dict V) :
  List.length (filter (fun kv => p (fst kv)) d) = List.length (filter p (keys d)).
Proof.
  induction d as [|[k v] d IH]; simpl; [reflexivity|].
  destruct (p k); simpl; rewrite IH; reflexivity.
Qed.

(** Twice the number of pairs still to enumerate is the sum, over the
    remaining nodes, of their unseen neighbours, a self-loop counting
    twice. *)
Lemma edges_iter_count seen rest :
  Enum seen rest -> 2 * List.length (edges_iter seen rest) = degree_sum seen rest.
Proof.
  revert seen. induction rest as [|[n nbrs] rest IH]; intros seen HE.
  - reflexivity.
  - pose proof (Enum_step HE) as HE'. destruct HE as [Hnd Hdisj Hnb Hcl Hsym].
    simpl in Hnd. inversion Hnd as [|? ? Hn Hnd']; subst.
    assert (Hns : dict_mem n seen = false) by (apply Hdisj; left; reflexivity).
    assert (Hnn : NoDup (keys nbrs)) by (eapply Hnb; left; reflexivity).
    simpl edges_iter. rewrite length_app, length_map. fold (unseen seen (keys nbrs)).
    unfold degree_sum at 1. simpl map. simpl list_sum. fold (degree_sum seen rest).
    rewrite (@degree_sum_mark seen n rest); [|intros; eapply Hnb; right; eauto | exact Hns].
    rewrite <- (IH _ HE').
    (* neighbours of [n] that are unseen: [n] itself and the remaining nodes *)
    assert (E1 : List.length (unseen seen (keys nbrs)) =
                 (if memb n (keys nbrs) then 1 else 0)
                 + List.length (filter (fun x => memb x (keys rest)) (keys nbrs))).
    { rewrite <- count_key; [|exact Hnn | apply memb_false; exact Hn].
      unfold unseen. f_equal. apply filter_ext_in. intros x Hx.
      destruct (String.eqb_spec x n) as [->|Hne]; simpl.
      - rewrite Hns. reflexivity.
      - destruct (Hcl n nbrs x (or_introl eq_refl) Hx) as [Hs|[E|Hr]].
        + rewrite Hs. symmetry. apply memb_false. intros Hr.
          rewrite (Hdisj x) in Hs by (right; exact Hr). discriminate.
        + simpl in E. congruence.
        + rewrite (Hdisj x) by (right; exact Hr). symmetry. apply memb_In, Hr. }
    (* by symmetry these are the remaining nodes with [n] as a neighbour *)
    assert (E2 : List.length (filter (fun mm => memb n (keys (snd mm))) rest) =
                 List.length (filter (fun x => memb x (keys rest)) (keys nbrs))).
    { rewrite count_swap by assumption. rewrite <- filter_keys.
      f_equal. apply filter_ext_in. intros [m mbrs] Hm. simpl.
      apply eq_true_iff_eq. rewrite !memb_In. split; intros Hin.
      - eapply (Hsym m mbrs n nbrs); [right; exact Hm | left; reflexivity | exact Hin].
      - eapply (Hsym n nbrs m mbrs); [left; reflexivity | right; exact Hm | exact Hin]. }
    rewrite dict_mem_memb. simpl fst. simpl snd. lia.
Qed.

Lemma unseen_nil (l : list string) : unseen [] l = l.
Proof.
  unfold unseen. induction l as [|a l IH]; simpl; [reflexivity|]. f_equal. exact IH.
Qed.

(** [G.number_of_edges()] counts what [G.edges()] enumerates. *)
Lemma number_of_edges_edges (G : Graph) :
  WF G -> number_of_edges G = List.length (edges G).
Proof.
  intros H. unfold number_of_edges, size, edges.
  pose proof (edges_iter_count (Enum_of_WF H)) as E.
  assert (E' : degree_sum [] (items (_adj G)) =
               list_sum (map (fun nn => degree_of (fst nn) (snd nn)) (items (_adj G)))).
  { unfold degree_sum, degree_of. f_equal. apply map_ext. intros [n nbrs]. simpl.
    rewrite unseen_nil. unfold keys, len. rewrite length_map. reflexivity. }
  rewrite <- E', <- E, Nat.mul_comm. apply Nat.div_mul. discriminate.
Qed.

(** *** Each edge is enumerated once *)

Lemma multiplicity_sym u v l : multiplicity u v l = multiplicity v u l.
Proof.
  unfold multiplicity. f_equal. apply filter_ext. intros e. unfold joins.
  apply orb_comm.
Qed.

Lemma multiplicity_app u v l1 l2 :
  multiplicity u v (l1 ++ l2) = multiplicity u v l1 + multiplicity u v l2.
Proof. unfold multiplicity. rewrite filter_app. apply length_app. Qed.

Lemma multiplicity_none u v l :
  (forall e, In e l -> joins u v e = false) -> multiplicity u v l = 0.
Proof.
  intros Hl. unfold multiplicity. induction l as [|e l IH]; simpl; [reflexivity|].
  rewrite (Hl e) by (left; reflexivity). apply IH. intros; apply Hl; right; assumption.
Qed.

(** Once [u] is marked as seen, no later pair touches it. *)
Lemma edges_iter_marked seen rest u v :
  dict_mem u seen = true -> ~ In u (keys rest) ->
  multiplicity u v (edges_iter seen rest) = 0.
Proof.
  intros Hs Hr. apply multiplicity_none. intros [a b] Hin.
  apply edges_iter_In in Hin. destruct Hin as [Hb [nbrs [Ha _]]].
  unfold joins. simpl.
  destruct (String.eqb_spec a u) as [->|Hau].
  - exfalso. apply Hr. change (In (fst (u, nbrs)) (map fst rest)). apply in_map, Ha.
  - destruct (String.eqb_spec b u) as [->|Hbu]; [congruence|].
    simpl. apply andb_false_r.
Qed.

Lemma count_one (v : string) (l : list string) :
  NoDup l -> In v l -> List.length (filter (fun x => String.eqb x v) l) = 1.
Proof.
  intros Hnd Hv. induction Hnd as [|a l Ha Hnd IH]; simpl; [destruct Hv|].
  destruct (String.eqb_spec a v) as [->|Hne]; simpl.
  - f_equal. clear IH Hv. induction l as [|b l IH]; simpl; [reflexivity|].
    destruct (String.eqb_spec b v) as [->|Hb].
    + exfalso. apply Ha. left. reflexivity.
    + apply IH.
      * intros Hin. apply Ha. right. exact Hin.
      * inversion Hnd; assumption.
  - destruct Hv as [E|Hv]; [congruence | auto].
Qed.

(** The node visited first enumerates its edge to [v], and nothing later
    does. *)
Lemma edges_iter_head seen u ubrs rest v :
  Enum seen ((u, ubrs) :: rest) -> In v (keys ubrs) ->
  v = u \/ In v (keys rest) ->
  multiplicity u v (edges_iter seen ((u, ubrs) :: rest)) = 1.
Proof.
  intros HE Hv Hvr. pose proof (Enum_step HE) as HE'.
  destruct HE as [Hnd Hdisj Hnb Hcl Hsym]. simpl in Hnd.
  inversion Hnd as [|? ? Hu Hnd']; subst.
  simpl edges_iter. rewrite multiplicity_app.
  rewrite (@edges_iter_marked (dict_set u 1 seen) rest u v);
    [|rewrite dict_mem_set, String.eqb_refl; reflexivity | exact Hu].
  rewrite Nat.add_0_r. unfold multiplicity.
  assert (E : filter (joins u v)
                (map (fun nbr => (u, nbr))
                     (filter (fun nbr => negb (dict_mem nbr seen)) (keys ubrs))) =
              map (fun nbr => (u, nbr))
                (filter (fun x => String.eqb x v)
                   (filter (fun nbr => negb (dict_mem nbr seen)) (keys ubrs)))).
  { generalize (filter (fun nbr => negb (dict_mem nbr seen)) (keys ubrs)).
    intros l. induction l as [|x l IH]; simpl; [reflexivity|].
    unfold joins at 1. simpl. rewrite String.eqb_refl. simpl.
    assert (Ex : String.eqb x v || String.eqb u v && String.eqb x u = String.eqb x v).
    { destruct (String.eqb_spec u v) as [->|]; simpl.
      - destruct (String.eqb x v); reflexivity.
      - apply orb_false_r. }
    rewrite Ex. destruct (String.eqb x v); simpl; rewrite IH; reflexivity. }
  rewrite E, length_map. apply count_one.
  - apply NoDup_filter. eapply Hnb. left. reflexivity.
  - apply filter_In. split; [exact Hv|]. apply negb_true_iff, Hdisj.
    destruct Hvr as [->|Hvr]; [left; reflexivity | right; exact Hvr].
Qed.

Lemma edges_iter_once seen rest u ubrs v vbrs :
  Enum seen rest -> In (u, ubrs) rest -> In v (keys ubrs) -> In (v, vbrs) rest ->
  multiplicity u v (edges_iter seen rest) = 1.
Proof.
  revert seen. induction rest as [|[n nbrs] rest IH]; intros seen HE Hu Hv Hvb.
  - destruct Hu.
  - assert (Hkey : forall k kbrs, In (k, kbrs) rest -> In k (keys rest)).
    { intros k kbrs Hk. change (In (fst (k, kbrs)) (map fst rest)). apply in_map, Hk. }
    assert (Hn : ~ In n (keys rest)).
    { pose proof (en_nodup HE) as Hnd. simpl in Hnd. inversion Hnd; assumption. }
    destruct Hu as [Eu|Hu].
    + injection Eu as -> ->. apply edges_iter_head; [exact HE | exact Hv |].
      destruct Hvb as [Ev|Hvb]; [left; congruence | right; eauto].
    + destruct Hvb as [Ev|Hvb].
      * injection Ev as -> ->. rewrite multiplicity_sym.
        apply edges_iter_head; [exact HE | | right; eauto].
        eapply (en_sym HE u ubrs v vbrs); [right; exact Hu | left; reflexivity | exact Hv].
      * simpl edges_iter. rewrite multiplicity_app.
        rewrite (IH _ (Enum_step HE) Hu Hv Hvb).
        rewrite multiplicity_none; [reflexivity|].
        intros e He. apply in_map_iff in He. destruct He as [x [<- _]].
        unfold joins. simpl.
        destruct (String.eqb_spec n u) as [->|_]; [exfalso; eauto|].
        destruct (String.eqb_spec n v) as [->|_]; [exfalso; eauto|].
        reflexivity.
Qed.

(** On a well-formed graph [G.edges()] lists only edges of [G], and lists
    each edge once. *)
Lemma edges_sound (G : Graph) (u v : string) :
  WF G -> In (u, v) (edges G) -> has_edge G u v = true.
Proof.
  intros H Hin. apply edges_iter_In in Hin. destruct Hin as [_ [nbrs [Hu Hv]]].
  unfold has_edge. unfold items in Hu.
  rewrite (In_dict_get _ _ _ (eq_ind_r (fun l => NoDup l) (wf_node_keys H) (wf_adj_keys H)) Hu).
  apply dict_mem_keys, Hv.
Qed.

Lemma edges_once (G : Graph) (u v : string) :
  WF G -> has_edge G u v = true -> multiplicity u v (edges G) = 1.
Proof.
  intros H Huv. pose proof (wf_sym H _ _ Huv) as Hvu.
  unfold has_edge in Huv, Hvu.
  destruct (dict_get u (_adj G)) as [ubrs|] eqn:Hu; [|discriminate].
  destruct (dict_get v (_adj G)) as [vbrs|] eqn:Hv; [|discriminate].
  apply (@edges_iter_once [] (items (_adj G)) u ubrs v vbrs).
  - apply Enum_of_WF, H.
  - apply dict_get_In, Hu.
  - apply dict_mem_keys, Huv.
  - apply dict_get_In, Hv.
Qed.

End nxFacts.

(* ===================================================================== *)
(** ** The graph builder *)
(* ===================================================================== *)

Module Builder.
Import nx nxFacts.


Section Loops.
Variable categories : dict string.
Variable relationships : dict (list string).


Lemma In_keys {V} (k : string) (v : V) (d : dict V) : In (k, v) d -> In k (keys d).
Proof. intros H. change (In (fst (k, v)) (map fst d)). apply in_map, H. Qed.

Lemma keys_In {V} (k : string) (d : dict V) : In k (keys d) -> exists v, In (k, v) d.
Proof.
  intros H. apply in_map_iff in H. destruct H as [[k' v] [E H]].
  simpl in E. subst. eauto.
Qed.

Lemma nodes_kept_refl G : nodes_kept G G.
Proof. intros n H. exact H. Qed.

Lemma nodes_kept_trans G1 G2 G3 : nodes_kept G1 G2 -> nodes_kept G2 G3 -> nodes_kept G1 G3.
Proof. intros H12 H23 n H. auto. Qed.

Lemma edges_kept_refl G : edges_kept G G.
Proof. intros u v H. exact H. Qed.

Lemma edges_kept_trans G1 G2 G3 : edges_kept G1 G2 -> edges_kept G2 G3 -> edges_kept G1 G3.
Proof. intros H12 H23 u v H. auto. Qed.

Lemma add_pattern_nodes_spec :
  exists G, add_pattern_nodes categories empty_graph = Ok G /\
    WF G /\ edgeless G /\ categorized categories G /\
    forall n, dict_mem n (_node G) = dict_mem n categories.
Proof.
  unfold add_pattern_nodes.
  set (body := fun (pc : string * string) G =>
                 Ok (add_node G (fst pc) [("category", snd pc)])).
  set (Inv := fun G => WF G /\ edgeless G /\ categorized categories G).
  set (Post := fun (pc : string * string) G => dict_mem (fst pc) (_node G) = true).
  assert (Hstable : forall pc G G', nodes_kept G G' -> Post pc G -> Post pc G').
  { intros pc G G' HR H. apply HR, H. }
  assert (Hstep : forall pc G, In pc (items categories) -> Inv G ->
            exists G', body pc G = Ok G' /\ Inv G' /\ nodes_kept G G' /\ Post pc G').
  { intros [p c] G Hin [Hwf [Hno Hcat]]. unfold body, Post. simpl.
    eexists. split; [reflexivity|]. split; [split; [|split]|split].
    + apply add_node_WF, Hwf.
    + intros u v. rewrite add_node_has_edge by exact Hwf. apply Hno.
    + intros n attrs. rewrite add_node_get.
      destruct (String.eqb_spec n p) as [->|Hne]; [|apply Hcat].
      intros [= <-]. exists c. split; [|exact Hin].
      destruct (dict_get p (_node G)) as [old|] eqn:Hold; [|reflexivity].
      destruct (Hcat _ _ Hold) as [c0 [-> _]]. reflexivity.
    + intros n Hn. unfold dict_mem in *. rewrite add_node_get.
      destruct (String.eqb n p); [reflexivity | exact Hn].
    + unfold dict_mem. rewrite add_node_get, String.eqb_refl. reflexivity. }
  assert (Hinit : Inv empty_graph).
  { split; [apply WF_empty | split]; [intros u v; reflexivity | intros n attrs; discriminate]. }
  destruct (@for_in_spec _ _ body Inv nodes_kept Post
              nodes_kept_refl nodes_kept_trans Hstable
              (items categories) Hstep empty_graph Hinit)
    as [G [E [[Hwf [Hno Hcat]] [_ Hpost]]]].
  exists G. split; [exact E|]. split; [exact Hwf|]. split; [exact Hno|].
  split; [exact Hcat|].
  intros n. apply eq_true_iff_eq. split.
  - intros Hn. apply dict_mem_get in Hn. destruct Hn as [attrs Hn].
    destruct (Hcat _ _ Hn) as [c [_ Hin]]. apply dict_mem_keys. eapply In_keys, Hin.
  - intros Hn. apply dict_mem_keys, keys_In in Hn. destruct Hn as [c Hin].
    apply (Hpost (n, c) Hin).
Qed.


Section EdgeLoop.
Variable G0 : Graph.
Hypothesis G0_nodes : forall n, dict_mem n (_node G0) = dict_mem n categories.


Lemma add_related_spec (p : string) (l : list string) :
  In (p, l) relationships -> dict_mem p categories = true ->
  forall G, edge_inv categories relationships G0 G ->
    exists G', add_related categories p l G = Ok G' /\ edge_inv categories relationships G0 G' /\
      edges_kept G G' /\
      forall r, In r l -> dict_mem r categories = true -> has_edge G' p r = true.
Proof.
  intros Hpl Hp. unfold add_related.
  set (body := fun related G =>
                 if dict_mem related categories then add_edge G p related else Ok G).
  set (Post := fun r G => dict_mem r categories = true -> has_edge G p r = true).
  assert (Hstable : forall r G G', edges_kept G G' -> Post r G -> Post r G').
  { intros r G G' HR H Hr. apply HR, H, Hr. }
  assert (Hstep : forall r G, In r l -> edge_inv categories relationships G0 G ->
            exists G', body r G = Ok G' /\ edge_inv categories relationships G0 G' /\ edges_kept G G' /\ Post r G').
  { intros r G Hr [Hwf [Hnode Hjust]]. unfold body, Post.
    destruct (dict_mem r categories) eqn:Hrc.
    - destruct (add_edge_spec p r Hwf) as [G' [E [Hwf' [Hnode' Hedge]]]].
      exists G'. split; [exact E|].
      rewrite add_edge_nodes in Hnode'
        by (rewrite Hnode, G0_nodes; assumption).
      split; [split; [exact Hwf'|split; [congruence|]]|split].
      + intros u v. rewrite Hedge, !orb_true_iff, !andb_true_iff, !String.eqb_eq.
        intros [[Huv|[-> ->]]|[-> ->]].
        * apply Hjust, Huv.
        * repeat split; auto. left. exists l. auto.
        * repeat split; auto. right. exists l. auto.
      + intros u v Huv. rewrite Hedge, Huv. reflexivity.
      + intros _. rewrite Hedge, !String.eqb_refl. simpl.
        rewrite orb_true_r. reflexivity.
    - exists G. split; [reflexivity|].
      split; [split; [exact Hwf|split; [exact Hnode|exact Hjust]]|split].
      + apply edges_kept_refl.
      + discriminate. }
  intros G HG.
  destruct (@for_in_spec _ _ body (edge_inv categories relationships G0) edges_kept Post
              edges_kept_refl edges_kept_trans Hstable l Hstep G HG)
    as [G' [E [HI [HR HP]]]].
  exists G'. split; [exact E|]. split; [exact HI|]. split; [exact HR|].
  intros r Hr Hrc. apply (HP r Hr Hrc).
Qed.

Lemma add_pattern_edges_spec :
  WF G0 -> edgeless G0 ->
  exists G, add_pattern_edges categories relationships G0 = Ok G /\
    WF G /\ _node G = _node G0 /\ justified categories relationships G /\
    forall p l r, In (p, l) relationships -> In r l ->
      dict_mem p categories = true -> dict_mem r categories = true ->
      has_edge G p r = true.
Proof.
  intros Hwf0 Hno0. unfold add_pattern_edges.
  set (body := fun (pr : string * list string) G =>
                 if dict_mem (fst pr) categories
                 then add_related categories (fst pr) (snd pr) G
                 else Ok G).
  set (Post := fun (pr : string * list string) G =>
                 dict_mem (fst pr) categories = true ->
                 forall r, In r (snd pr) -> dict_mem r categories = true ->
                   has_edge G (fst pr) r = true).
  assert (Hstable : forall pr G G', edges_kept G G' -> Post pr G -> Post pr G').
  { intros pr G G' HR H Hp r Hr Hrc. apply HR, H; assumption. }
  assert (Hstep : forall pr G, In pr (items relationships) -> edge_inv categories relationships G0 G ->
            exists G', body pr G = Ok G' /\ edge_inv categories relationships G0 G' /\ edges_kept G G' /\ Post pr G').
  { intros [p l] G Hin HG. unfold body, Post. simpl.
    destruct (dict_mem p categories) eqn:Hp.
    - destruct (add_related_spec p l Hin Hp HG) as [G' [E [HI [HR HP]]]].
      exists G'. auto.
    - exists G. split; [reflexivity|]. split; [exact HG|]. split.
      + apply edges_kept_refl.
      + discriminate. }
  assert (Hinit : edge_inv categories relationships G0 G0).
  { split; [exact Hwf0|split; [reflexivity|]]. intros u v Huv.
    rewrite Hno0 in Huv. discriminate. }
  destruct (@for_in_spec _ _ body (edge_inv categories relationships G0) edges_kept Post
              edges_kept_refl edges_kept_trans Hstable
              (items relationships) Hstep G0 Hinit)
    as [G [E [[Hwf [Hnode Hjust]] [_ HP]]]].
  exists G. split; [exact E|]. split; [exact Hwf|]. split; [exact Hnode|].
  split; [exact Hjust|].
  intros p l r Hpl Hr Hp Hrc. apply (HP (p, l) Hpl Hp r Hr Hrc).
Qed.

End EdgeLoop.


End Loops.

(** [create_pattern_network] returns, leaves the state alone, and the graph
    it returns is the one the two loops build. *)
Lemma create_pattern_network_spec (w : world) :
  exists G1 G,
    run create_pattern_network w = (Ok G, w) /\
    add_pattern_nodes (PATTERN_CATEGORIES (globals w)) empty_graph = Ok G1 /\
    add_pattern_edges (PATTERN_CATEGORIES (globals w))
      (PATTERN_RELATIONSHIPS (globals w)) G1 = Ok G /\
    _node G = _node G1 /\ edgeless G1 /\
    built (PATTERN_CATEGORIES (globals w)) (PATTERN_RELATIONSHIPS (globals w)) G.
Proof.
  destruct (add_pattern_nodes_spec (PATTERN_CATEGORIES (globals w)))
    as [G1 [E1 [Hwf1 [Hno1 [Hcat1 Hn1]]]]].
  destruct (@add_pattern_edges_spec (PATTERN_CATEGORIES (globals w))
              (PATTERN_RELATIONSHIPS (globals w)) G1 Hn1 Hwf1 Hno1)
    as [G [E [Hwf [Hnode [Hjust Hcomp]]]]].
  exists G1, G.
  split.
  { unfold run, create_pattern_network, bind, read_globals, lift.
    simpl. rewrite E1. simpl. rewrite E. reflexivity. }
  split; [exact E1|]. split; [exact E|]. split; [exact Hnode|]. split; [exact Hno1|].
  split; auto.
  - intros n. rewrite Hnode. apply Hn1.
  - intros n attrs. rewrite Hnode. apply Hcat1.
Qed.


(** The script's own tables give ten nodes and thirteen edges; the two
    relationships to uncategorized patterns are not among them. *)
Example script_graph :
  exists G, run create_pattern_network initial_world = (Ok G, initial_world) /\
    number_of_nodes G = 10 /\ number_of_edges G = 13 /\
    List.length (edges G) = 13 /\
    has_edge G "Emergent Behavior" "Self-Organization" = false /\
    has_edge G "Feedback Loops" "Adaptive Capacity" = false.
Proof.
  eexists. split; [vm_compute; reflexivity|].
  repeat split; vm_compute; reflexivity.
Qed.

End Builder.

(* ===================================================================== *)
(** ** The exporter *)
(* ===================================================================== *)

Module Exporter.
Import nx nxFacts.

Lemma append_nodes {A} (f : A -> pyvalue) (l : list A) (xs ys : list pyvalue) :
  for_in l (fun a data => append_to data "nodes" (f a))
    [("nodes", PyList xs); ("links", PyList ys)] =
  Ok [("nodes", PyList (xs ++ map f l)); ("links", PyList ys)].
Proof.
  revert xs. induction l as [|a l IH]; intros xs; simpl.
  - rewrite app_nil_r. reflexivity.
  - rewrite IH, <- app_assoc. reflexivity.
Qed.

Lemma append_links {A} (f : A -> pyvalue) (l : list A) (xs ys : list pyvalue) :
  for_in l (fun a data => append_to data "links" (f a))
    [("nodes", PyList xs); ("links", PyList ys)] =
  Ok [("nodes", PyList xs); ("links", PyList (ys ++ map f l))].
Proof.
  revert ys. induction l as [|a l IH]; intros ys; simpl.
  - rewrite app_nil_r. reflexivity.
  - rewrite IH, <- app_assoc. reflexivity.
Qed.


(** [save_network_data] returns; it writes the document to [output_file]
    and one line to standard output, and touches nothing else. *)
Lemma save_network_data_run (G : Graph) (output_file : string) (w : world) :
  run (save_network_data G output_file) w =
  (Ok tt, {| globals := globals w; figures := figures w; shown := shown w;
             files := dict_set output_file (JsonFile (document G) 2) (files w);
             stdout := stdout w ++ ["Network data saved to " ++ output_file] |}).
Proof.
  unfold run, save_network_data, bind, lift, json_dump, write_file, print.
  change (dict_display [("nodes", PyList []); ("links", PyList [])])
    with [("nodes", PyList []); ("links", PyList [])].
  rewrite (append_nodes node_object). simpl app.
  rewrite (append_links link_object). reflexivity.
Qed.

Lemma link_joins_object (u v : string) (e : string * string) :
  link_joins u v (link_object e) = joins u v e.
Proof. destruct e as [s t]. reflexivity. Qed.

Lemma filter_map_length {A B} (p : B -> bool) (q : A -> bool) (f : A -> B) (l : list A) :
  (forall a, p (f a) = q a) ->
  List.length (filter p (map f l)) = List.length (filter q l).
Proof.
  intros H. induction l as [|a l IH]; simpl; [reflexivity|].
  rewrite H. destruct (q a); simpl; rewrite IH; reflexivity.
Qed.

End Exporter.

(* ===================================================================== *)
(** ** The renderer *)
(* ===================================================================== *)

Module Renderer.


Lemma draw_run (a : artist) (w : world) (f : Figure) (fs : list Figure) :
  figures w = f :: fs -> run (plt.draw a) w = (Ok tt, drawn w f fs [a]).
Proof. intros H. unfold run, plt.draw. rewrite H. reflexivity. Qed.

Lemma drawn_drawn w f fs l1 l2 :
  drawn (drawn w f fs l1) {| figsize := figsize f; artists := artists f ++ l1 |} fs l2
  = drawn w f fs (l1 ++ l2).
Proof. unfold drawn. simpl. rewrite app_assoc. reflexivity. Qed.

Lemma draw_loop_run {A} (a : A -> artist) (l : list A) (w : world) f fs :
  figures w = f :: fs ->
  run (for_each l (fun x => plt.draw (a x))) w = (Ok tt, drawn w f fs (map a l)).
Proof.
  revert w f. induction l as [|x l IH]; intros w f H; simpl.
  - unfold run, ret, drawn. rewrite app_nil_r. destruct w, f. simpl in *. congruence.
  - unfold run, bind. fold (run (plt.draw (a x)) w). rewrite (draw_run (a x) w H).
    fold (run (for_each l (fun x => plt.draw (a x))) (drawn w f fs [a x])).
    rewrite (IH (drawn w f fs [a x]) _ eq_refl). rewrite drawn_drawn. reflexivity.
Qed.


Lemma visualize_pattern_network_run (G : nx.Graph) (output_file : option string) (w : world) :
  run (visualize_pattern_network G output_file) w =
  (Ok tt,
   if truthy output_file then
     {| globals := globals w;
        figures := network_figure (globals w) G :: figures w;
        shown := shown w;
        files := dict_set (str output_file)
                   (ImageFile (network_figure (globals w) G) 300 "tight") (files w);
        stdout := stdout w ++ ["Network visualization saved to " ++ str output_file] |}
   else
     {| globals := globals w;
        figures := network_figure (globals w) G :: figures w;
        shown := shown w ++ network_figure (globals w) G :: figures w;
        files := files w;
        stdout := stdout w |}).
Proof.
  unfold visualize_pattern_network, run.
  unfold bind at 1. unfold plt.figure at 1.
  unfold bind at 1. unfold read_globals at 1. simpl globals.
  set (w1 := {| globals := globals w;
                figures := {| figsize := (16 # 1, 12 # 1); artists := [] |} :: figures w;
                shown := shown w; files := files w; stdout := stdout w |}).
  unfold bind at 1.
  pose proof (@draw_loop_run _
    (fun cc => NetworkxNodes (nodes_of_category G (fst cc)) (snd cc) 2000 (8 # 10) (fst cc))
    (items (CATEGORIES (globals w))) w1 _ _ eq_refl) as Hloop.
  unfold run in Hloop. rewrite Hloop. clear Hloop.
  unfold plt.title, plt.legend, plt.axis, bind, plt.draw, drawn. simpl.
  unfold network_figure, network_artists.
  rewrite <- !app_assoc. simpl.
  destruct (truthy output_file); reflexivity.
Qed.

End Renderer.

(* ===================================================================== *)
(** ** Properties of the script *)
(* ===================================================================== *)

Import nx nxFacts Builder.


Lemma exported_document (G : Graph) (output_file : string) (w : world) :
  exported G output_file w =
  Some (map node_object (nodes_data G), map link_object (edges G)).
Proof.
  unfold exported. rewrite Exporter.save_network_data_run. simpl files.
  rewrite dict_get_set, String.eqb_refl. reflexivity.
Qed.

(** C1: for every pattern [p] that the category table maps to [c], the
    graph [create_pattern_network] returns has exactly one node named [p],
    and that node's [category] attribute is [c]. *)
Theorem one_node_per_pattern (w : world) (p c : string) :
  dict_wf (PATTERN_CATEGORIES (globals w)) = true ->
  dict_get p (PATTERN_CATEGORIES (globals w)) = Some c ->
  exists G, run create_pattern_network w = (Ok G, w) /\
    count_occ string_dec (map fst (nodes_data G)) p = 1 /\
    (exists attrs, In (p, attrs) (nodes_data G)) /\
    forall attrs, In (p, attrs) (nodes_data G) -> dict_get "category" attrs = Some c.
Proof.
  intros Hwf Hp.
  destruct (create_pattern_network_spec w) as [G1 [G [Hrun [_ [_ [_ [_ HB]]]]]]].
  exists G. split; [exact Hrun|].
  pose proof (wf_node_keys (built_wf HB)) as Hnd.
  assert (Hmem : dict_mem p (_node G) = true).
  { rewrite (built_nodes HB). apply dict_mem_get. eauto. }
  assert (Hattr : forall attrs, In (p, attrs) (nodes_data G) ->
                    dict_get "category" attrs = Some c).
  { intros attrs Hin. apply (In_dict_get _ _ _ Hnd) in Hin.
    destruct (built_categorized HB _ Hin) as [c' [-> Hc']].
    apply In_dict_get in Hc'; [|apply dict_wf_NoDup, Hwf].
    simpl. congruence. }
  split; [|split; [|exact Hattr]].
  - apply NoDup_count_occ'; [exact Hnd | apply dict_mem_keys, Hmem].
  - apply dict_mem_get in Hmem. destruct Hmem as [attrs Hget].
    exists attrs. apply dict_get_In, Hget.
Qed.

Lemma one_node_per_pattern_witness :
  exists G, run create_pattern_network initial_world = (Ok G, initial_world) /\
    count_occ string_dec (map fst (nodes_data G)) "Feedback Loops" = 1 /\
    (exists attrs, In ("Feedback Loops", attrs) (nodes_data G)) /\
    forall attrs, In ("Feedback Loops", attrs) (nodes_data G) ->
      dict_get "category" attrs = Some "Process".
Proof.
  apply (@one_node_per_pattern initial_world "Feedback Loops" "Process"); reflexivity.
Defined.

(** C2: for every relationship entry [(p, r)] whose two names are keys of
    the category table, the built graph has the edge between [p] and [r],
    in both directions of the adjacency (edges are undirected), and
    [G.edges()] lists it exactly once however often it was declared. *)
Theorem declared_edge_once (w : world) (p r : string) (l : list string) :
  In (p, l) (items (PATTERN_RELATIONSHIPS (globals w))) -> In r l ->
  dict_mem p (PATTERN_CATEGORIES (globals w)) = true ->
  dict_mem r (PATTERN_CATEGORIES (globals w)) = true ->
  exists G, run create_pattern_network w = (Ok G, w) /\
    has_edge G p r = true /\ has_edge G r p = true /\
    multiplicity p r (edges G) = 1 /\
    (forall u v, has_edge G u v = has_edge G v u) /\
    (forall u v, multiplicity u v (edges G) <= 1).
Proof.
  intros Hpl Hr Hp Hrc.
  destruct (create_pattern_network_spec w) as [G1 [G [Hrun [_ [_ [_ [_ HB]]]]]]].
  exists G. split; [exact Hrun|].
  pose proof (built_wf HB) as Hwf.
  pose proof (built_complete HB p l r Hpl Hr Hp Hrc) as Hpr.
  split; [exact Hpr|]. split; [apply (wf_sym Hwf), Hpr|].
  split; [apply edges_once; assumption|]. split.
  - intros u v. apply eq_true_iff_eq. split; apply (wf_sym Hwf).
  - intros u v. destruct (has_edge G u v) eqn:Huv.
    + rewrite edges_once by assumption. lia.
    + rewrite multiplicity_none; [lia|]. intros [a b] Hab.
      apply (edges_sound _ _ Hwf) in Hab.
      destruct (joins u v (a, b)) eqn:J; [|reflexivity].
      unfold joins in J. simpl in J.
      rewrite orb_true_iff, !andb_true_iff, !String.eqb_eq in J.
      destruct J as [[-> ->]|[-> ->]]; [congruence|].
      apply (wf_sym Hwf) in Hab. congruence.
Qed.

Lemma declared_edge_once_witness :
  exists G, run create_pattern_network initial_world = (Ok G, initial_world) /\
    has_edge G "Emergent Behavior" "Fractal Self-Similarity" = true /\
    has_edge G "Fractal Self-Similarity" "Emergent Behavior" = true /\
    multiplicity "Emergent Behavior" "Fractal Self-Similarity" (edges G) = 1 /\
    (forall u v, has_edge G u v = has_edge G v u) /\
    (forall u v, multiplicity u v (edges G) <= 1).
Proof.
  apply (@declared_edge_once initial_world "Emergent Behavior" "Fractal Self-Similarity"
           ["Fractal Self-Similarity"; "Feedback Loops"; "Self-Organization"]).
  - vm_compute. tauto.
  - simpl. tauto.
  - reflexivity.
  - reflexivity.
Defined.

(** C3: a relationship entry that names a pattern missing from the
    category table adds no edge, and no exception is raised:
    [create_pattern_network] returns a graph in which every edge has both
    endpoints among the keys of the category table. *)
Theorem unknown_patterns_dropped (w : world) :
  exists G, run create_pattern_network w = (Ok G, w) /\
    (forall u v, has_edge G u v = true ->
       dict_mem u (PATTERN_CATEGORIES (globals w)) = true /\
       dict_mem v (PATTERN_CATEGORIES (globals w)) = true) /\
    (forall u v, In (u, v) (edges G) ->
       dict_mem u (PATTERN_CATEGORIES (globals w)) = true /\
       dict_mem v (PATTERN_CATEGORIES (globals w)) = true) /\
    (forall p l r,
       In (p, l) (items (PATTERN_RELATIONSHIPS (globals w))) -> In r l ->
       dict_mem p (PATTERN_CATEGORIES (globals w)) = false \/
       dict_mem r (PATTERN_CATEGORIES (globals w)) = false ->
       has_edge G p r = false /\ has_edge G r p = false /\
       multiplicity p r (edges G) = 0).
Proof.
  destruct (create_pattern_network_spec w) as [G1 [G [Hrun [_ [_ [_ [_ HB]]]]]]].
  exists G. split; [exact Hrun|].
  pose proof (built_wf HB) as Hwf.
  assert (Hends : forall u v, has_edge G u v = true ->
            dict_mem u (PATTERN_CATEGORIES (globals w)) = true /\
            dict_mem v (PATTERN_CATEGORIES (globals w)) = true).
  { intros u v Huv. destruct (built_justified HB _ _ Huv) as [Hu [Hv _]]. auto. }
  split; [exact Hends|]. split.
  - intros u v Huv. apply Hends, edges_sound; assumption.
  - intros p l r _ _ Habsent.
    assert (Hpr : has_edge G p r = false).
    { destruct (has_edge G p r) eqn:E; [|reflexivity].
      destruct (Hends _ _ E). destruct Habsent; congruence. }
    assert (Hrp : has_edge G r p = false).
    { destruct (has_edge G r p) eqn:E; [|reflexivity].
      destruct (Hends _ _ E). destruct Habsent; congruence. }
    split; [exact Hpr|]. split; [exact Hrp|].
    apply multiplicity_none. intros [a b] Hab.
    apply (edges_sound _ _ Hwf) in Hab.
    destruct (joins p r (a, b)) eqn:J; [|reflexivity].
    unfold joins in J. simpl in J.
    rewrite orb_true_iff, !andb_true_iff, !String.eqb_eq in J.
    destruct J as [[-> ->]|[-> ->]]; congruence.
Qed.

Lemma unknown_patterns_dropped_witness :
  exists G, run create_pattern_network initial_world = (Ok G, initial_world) /\
    has_edge G "Emergent Behavior" "Self-Organization" = false /\
    has_edge G "Self-Organization" "Emergent Behavior" = false /\
    multiplicity "Emergent Behavior" "Self-Organization" (edges G) = 0.
Proof.
  destruct (unknown_patterns_dropped initial_world) as [G [Hrun [_ [_ Hdrop]]]].
  exists G. split; [exact Hrun|].
  apply (Hdrop "Emergent Behavior"
           ["Fractal Self-Similarity"; "Feedback Loops"; "Self-Organization"]
           "Self-Organization").
  - vm_compute. tauto.
  - simpl. tauto.
  - right. reflexivity.
Defined.

(** The scenario of C3: with relationships [{"A": ["Z"]}] and ["Z"] not
    categorized the built graph has no edge. *)
Lemma dangling_relationship_no_edge (categories : dict string) :
  dict_mem "Z" categories = false ->
  exists G, run create_pattern_network (dangling_world categories)
            = (Ok G, dangling_world categories) /\
    edges G = [] /\ number_of_edges G = 0.
Proof.
  intros HZ.
  destruct (create_pattern_network_spec (dangling_world categories))
    as [G1 [G [Hrun [_ [_ [_ [_ HB]]]]]]].
  exists G. split; [exact Hrun|].
  pose proof (built_wf HB) as Hwf.
  assert (Hnil : edges G = []).
  { destruct (edges G) as [|[u v] es] eqn:E; [reflexivity|]. exfalso.
    assert (Huv : has_edge G u v = true).
    { apply edges_sound; [exact Hwf | rewrite E; left; reflexivity]. }
    destruct (built_justified HB _ _ Huv) as [Hu [Hv [[l [Hl Hin]]|[l [Hl Hin]]]]];
      simpl in Hl, Hu, Hv; destruct Hl as [Hl|[]]; injection Hl as <- <-;
      destruct Hin as [<-|[]]; congruence. }
  split; [exact Hnil|].
  rewrite number_of_edges_edges by exact Hwf. rewrite Hnil. reflexivity.
Qed.

(** C4: for every graph [G], the document [save_network_data] writes has
    as many node objects as [G] has nodes and as many link objects as [G]
    has edges; every link object names an edge of [G], and every edge of
    [G] is named by exactly one link object, whichever direction it is
    read in. *)
Theorem export_round_trip (G : Graph) (output_file : string) (w : world) :
  graph_wf G = true ->
  exists nodes links,
    fst (run (save_network_data G output_file) w) = Ok tt /\
    exported G output_file w = Some (nodes, links) /\
    List.length nodes = number_of_nodes G /\
    List.length links = number_of_edges G /\
    (forall x, In x links ->
       exists u v, field "source" x = Some (PyStr u) /\
                   field "target" x = Some (PyStr v) /\
                   has_edge G u v = true) /\
    (forall u v, has_edge G u v = true ->
       List.length (filter (link_joins u v) links) = 1).
Proof.
  intros Hwf. apply graph_wf_WF in Hwf.
  exists (map node_object (nodes_data G)), (map link_object (edges G)).
  split; [rewrite Exporter.save_network_data_run; reflexivity|].
  split; [apply exported_document|].
  split; [rewrite length_map; reflexivity|].
  split; [rewrite length_map; symmetry; apply number_of_edges_edges, Hwf|].
  split.
  - intros x Hx. apply in_map_iff in Hx. destruct Hx as [[u v] [<- Huv]].
    exists u, v. split; [reflexivity|]. split; [reflexivity|].
    apply edges_sound; assumption.
  - intros u v Huv.
    rewrite (Exporter.filter_map_length (link_joins u v) (joins u v) link_object)
      by (apply Exporter.link_joins_object).
    apply (edges_once _ _ Hwf Huv).
Qed.

Lemma export_round_trip_witness :
  exists nodes links,
    fst (run (save_network_data scenario_graph "pattern_network.json") initial_world)
    = Ok tt /\
    exported scenario_graph "pattern_network.json" initial_world = Some (nodes, links) /\
    List.length nodes = number_of_nodes scenario_graph /\
    List.length links = number_of_edges scenario_graph /\
    (forall x, In x links ->
       exists u v, field "source" x = Some (PyStr u) /\
                   field "target" x = Some (PyStr v) /\
                   has_edge scenario_graph u v = true) /\
    (forall u v, has_edge scenario_graph u v = true ->
       List.length (filter (link_joins u v) links) = 1).
Proof.
  apply (@export_round_trip scenario_graph "pattern_network.json" initial_world).
  vm_compute. reflexivity.
Defined.

(** C5: the exported document is an object with exactly the keys [nodes]
    and [links]; every element of [nodes] is an object with exactly the
    keys [id], the name of a node, and [category], that node's label; every
    element of [links] is an object with exactly the keys [source] and
    [target], the two ends of an enumerated edge. *)
Theorem export_shape (G : Graph) (output_file : string) (w : world) :
  exists doc nodes links,
    dict_get output_file (files (snd (run (save_network_data G output_file) w)))
    = Some (JsonFile doc 2) /\
    object_keys doc = Some ["nodes"; "links"] /\
    field "nodes" doc = Some (PyList nodes) /\
    field "links" doc = Some (PyList links) /\
    (forall x, In x nodes ->
       object_keys x = Some ["id"; "category"] /\
       exists n attrs, In (n, attrs) (nodes_data G) /\
         field "id" x = Some (PyStr n) /\
         field "category" x
         = Some (PyStr (dict_get_default "category" "Unknown" attrs))) /\
    (forall x, In x links ->
       object_keys x = Some ["source"; "target"] /\
       exists s t, In (s, t) (edges G) /\
         field "source" x = Some (PyStr s) /\ field "target" x = Some (PyStr t)).
Proof.
  exists (document G),
    (map node_object (nodes_data G)), (map link_object (edges G)).
  split.
  { rewrite Exporter.save_network_data_run. simpl files.
    rewrite dict_get_set, String.eqb_refl. reflexivity. }
  split; [reflexivity|]. split; [reflexivity|]. split; [reflexivity|]. split.
  - intros x Hx. apply in_map_iff in Hx. destruct Hx as [[n attrs] [<- Hin]].
    split; [reflexivity|]. exists n, attrs. auto.
  - intros x Hx. apply in_map_iff in Hx. destruct Hx as [[a b] [<- Hin]].
    split; [reflexivity|]. exists a, b. auto.
Qed.

(** C6: every node of the graph [create_pattern_network] returns carries
    a [category] attribute, the one the table declares for it, so the
    exporter never falls back on ["Unknown"]: unless the table itself uses
    that label, no exported node object has category ["Unknown"]. *)
Theorem unknown_sentinel_unreachable (w : world) (output_file : string) (w' : world) :
  ~ In "Unknown" (map snd (items (PATTERN_CATEGORIES (globals w)))) ->
  exists G nodes links,
    run create_pattern_network w = (Ok G, w) /\
    (forall n attrs, In (n, attrs) (nodes_data G) ->
       exists c, dict_get "category" attrs = Some c /\
                 In (n, c) (items (PATTERN_CATEGORIES (globals w)))) /\
    exported G output_file w' = Some (nodes, links) /\
    (forall x, In x nodes -> field "category" x <> Some (PyStr "Unknown")).
Proof.
  intros Hlabel.
  destruct (create_pattern_network_spec w) as [G1 [G [Hrun [_ [_ [_ [_ HB]]]]]]].
  exists G, (map node_object (nodes_data G)), (map link_object (edges G)).
  split; [exact Hrun|].
  pose proof (wf_node_keys (built_wf HB)) as Hnd.
  assert (Hcat : forall n attrs, In (n, attrs) (nodes_data G) ->
            exists c, dict_get "category" attrs = Some c /\
                      In (n, c) (items (PATTERN_CATEGORIES (globals w)))).
  { intros n attrs Hin. apply (In_dict_get _ _ _ Hnd) in Hin.
    destruct (built_categorized HB _ Hin) as [c [-> Hc]]. exists c. auto. }
  split; [exact Hcat|]. split; [apply exported_document|].
  intros x Hx. apply in_map_iff in Hx. destruct Hx as [[n attrs] [<- Hin]].
  destruct (Hcat _ _ Hin) as [c [Hget Hc]].
  unfold node_object, field, dict_get_default. simpl. rewrite Hget.
  intros [= ->]. apply Hlabel.
  change (In (snd (n, "Unknown")) (map snd (items (PATTERN_CATEGORIES (globals w))))).
  apply in_map, Hc.
Qed.

Lemma unknown_sentinel_unreachable_witness :
  exists G nodes links,
    run create_pattern_network initial_world = (Ok G, initial_world) /\
    (forall n attrs, In (n, attrs) (nodes_data G) ->
       exists c, dict_get "category" attrs = Some c /\
                 In (n, c) (items (PATTERN_CATEGORIES (globals initial_world)))) /\
    exported G "pattern_network.json" initial_world = Some (nodes, links) /\
    (forall x, In x nodes -> field "category" x <> Some (PyStr "Unknown")).
Proof.
  apply (@unknown_sentinel_unreachable initial_world "pattern_network.json" initial_world).
  vm_compute. intuition discriminate.
Defined.

(** C7: two calls of [create_pattern_network] over the same tables return
    graphs with the same nodes, attributes included, and the same edges;
    a call leaves the tables as they were. *)
Theorem create_pattern_network_idempotent (w1 w2 : world) :
  globals w1 = globals w2 ->
  exists G1 G2,
    run create_pattern_network w1 = (Ok G1, w1) /\
    run create_pattern_network w2 = (Ok G2, w2) /\
    nodes_data G1 = nodes_data G2 /\
    edges G1 = edges G2 /\
    run (G <- create_pattern_network ;; G' <- create_pattern_network ;; ret (G, G')) w1
    = (Ok (G1, G1), w1).
Proof.
  intros Hg.
  destruct (create_pattern_network_spec w1) as [N1 [G1 [Hrun1 [En1 [Ee1 _]]]]].
  destruct (create_pattern_network_spec w2) as [N2 [G2 [Hrun2 [En2 [Ee2 _]]]]].
  rewrite <- Hg in En2, Ee2.
  assert (N1 = N2) by congruence. subst N2.
  assert (G1 = G2) by congruence. subst G2.
  exists G1, G1. split; [exact Hrun1|]. split; [exact Hrun2|].
  split; [reflexivity|]. split; [reflexivity|].
  unfold run, bind in *. rewrite Hrun1, Hrun1. reflexivity.
Qed.

Lemma create_pattern_network_idempotent_witness :
  exists G1 G2,
    run create_pattern_network initial_world = (Ok G1, initial_world) /\
    run create_pattern_network exported_world = (Ok G2, exported_world) /\
    nodes_data G1 = nodes_data G2 /\
    edges G1 = edges G2 /\
    run (G <- create_pattern_network ;; G' <- create_pattern_network ;; ret (G, G'))
      initial_world
    = (Ok (G1, G1), initial_world).
Proof.
  apply (@create_pattern_network_idempotent initial_world exported_world).
  reflexivity.
Defined.

(** C8: on categories [{"A": "Structural", "B": "Process"}] and
    relationships [{"A": ["B"], "B": ["A"]}] the builder returns a graph
    with 2 nodes and the single edge between ["A"] and ["B"], and its
    export has 2 node objects and 1 link object. *)
Theorem scenario_two_patterns (output_file : string) (w : world) :
  exists G nodes links,
    run create_pattern_network scenario_world = (Ok G, scenario_world) /\
    number_of_nodes G = 2 /\
    number_of_edges G = 1 /\
    edges G = [("A", "B")] /\
    has_edge G "A" "B" = true /\ has_edge G "B" "A" = true /\
    exported G output_file w = Some (nodes, links) /\
    List.length nodes = 2 /\
    List.length links = 1.
Proof.
  exists scenario_graph,
    (map node_object (nodes_data scenario_graph)),
    (map link_object (edges scenario_graph)).
  split; [vm_compute; reflexivity|].
  split; [reflexivity|]. split; [reflexivity|]. split; [reflexivity|].
  split; [reflexivity|]. split; [reflexivity|].
  split; [apply exported_document|].
  split; reflexivity.
Qed.

(** C9: the nodes of the built graph are exactly the keys of the category
    table, each once; the edge loop creates no node, the node dictionary
    after it being the one the node loop left. *)
Theorem nodes_are_category_keys (w : world) :
  exists G1 G,
    add_pattern_nodes (PATTERN_CATEGORIES (globals w)) empty_graph = Ok G1 /\
    add_pattern_edges (PATTERN_CATEGORIES (globals w))
      (PATTERN_RELATIONSHIPS (globals w)) G1 = Ok G /\
    run create_pattern_network w = (Ok G, w) /\
    _node G = _node G1 /\
    NoDup (map fst (nodes_data G)) /\
    forall p, In p (map fst (nodes_data G)) <->
              In p (keys (PATTERN_CATEGORIES (globals w))).
Proof.
  destruct (create_pattern_network_spec w) as [G1 [G [Hrun [En [Ee [Hnode [_ HB]]]]]]].
  exists G1, G. split; [exact En|]. split; [exact Ee|]. split; [exact Hrun|].
  split; [exact Hnode|]. split; [apply (wf_node_keys (built_wf HB))|].
  intros p. change (map fst (nodes_data G)) with (keys (_node G)).
  rewrite <- !dict_mem_keys, (built_nodes HB). tauto.
Qed.

(** C10: called with [output_file] omitted or [None],
    [visualize_pattern_network] writes no file and prints nothing; it
    hands the figure it drew to [plt.show]. *)
Theorem show_when_no_output_file (G : Graph) (w : world) :
  exists w' fig,
    run (visualize_pattern_network G None) w = (Ok tt, w') /\
    files w' = files w /\
    stdout w' = stdout w /\
    figures w' = fig :: figures w /\
    shown w' = (shown w ++ fig :: figures w)%list.
Proof.
  eexists. exists (network_figure (globals w) G).
  rewrite Renderer.visualize_pattern_network_run. simpl truthy. cbv iota.
  split; [reflexivity|]. simpl. auto.
Qed.

(** With an output path the save branch runs instead: the image is written
    there, the confirmation is printed, and nothing is shown. *)
Lemma save_when_output_file (G : Graph) (path : string) (w : world) :
  path <> "" ->
  exists w' fig,
    run (visualize_pattern_network G (Some path)) w = (Ok tt, w') /\
    files w' = dict_set path (ImageFile fig 300 "tight") (files w) /\
    stdout w' = (stdout w ++ [("Network visualization saved to " ++ path)%string])%list /\
    shown w' = shown w.
Proof.
  intros Hp. eexists. exists (network_figure (globals w) G).
  rewrite Renderer.visualize_pattern_network_run. simpl truthy.
  destruct (String.eqb_spec path "") as [->|_]; [congruence|]. simpl.
  auto.
Qed.

(* ===================================================================== *)
(** ** Further properties of the builder *)
(* ===================================================================== *)

Lemma dict_set_absent {V} (k : string) (v : V) (d : dict V) :
  dict_mem k d = false -> dict_set k v d = (d ++ [(k, v)])%list.
Proof.
  unfold dict_mem. induction d as [|[k0 v0] d IH]; simpl; [reflexivity|].
  destruct (String.eqb k k0); [discriminate|].
  intros H. rewrite IH by exact H. reflexivity.
Qed.

Lemma add_pattern_nodes_fresh (l : dict string) (G : Graph) :
  NoDup (keys l) ->
  (forall k, In k (keys l) -> dict_mem k (_node G) = false) ->
  exists G', add_pattern_nodes l G = Ok G' /\
    _node G' = (_node G ++ map (fun pc => (fst pc, [("category", snd pc)])) l)%list.
Proof.
  unfold add_pattern_nodes, items.
  revert G. induction l as [|[p c] l IH]; intros G Hnd Hfresh; simpl.
  - exists G. rewrite app_nil_r. auto.
  - inversion Hnd as [|? ? Hp Hnd']; subst.
    assert (Hpn : dict_mem p (_node G) = false) by (apply Hfresh; left; reflexivity).
    set (G1 := add_node G p [("category", c)]).
    assert (E1 : _node G1 = (_node G ++ [(p, [("category", c)])])%list).
    { unfold G1, add_node. unfold dict_mem in Hpn.
      destruct (dict_get p (_node G)) eqn:Hget; [discriminate|]. simpl.
      apply dict_set_absent. unfold dict_mem. rewrite Hget. reflexivity. }
    destruct (IH G1 Hnd') as [G' [E' Hn']].
    { intros k Hk. rewrite E1. apply dict_mem_false_keys. unfold keys.
      rewrite map_app, in_app_iff. simpl. intros [Hin|[<-|[]]].
      - apply dict_mem_keys in Hin. rewrite Hfresh in Hin by (right; exact Hk).
        discriminate.
      - contradiction. }
    exists G'. split; [exact E'|]. rewrite Hn', E1, <- app_assoc. reflexivity.
Qed.

(** X1: two patterns are adjacent in the built graph exactly when both are
    categorized and one of them lists the other. *)
Theorem edge_iff_declared (w : world) :
  exists G, run create_pattern_network w = (Ok G, w) /\
    forall u v, has_edge G u v = true <->
      dict_mem u (PATTERN_CATEGORIES (globals w)) = true /\
      dict_mem v (PATTERN_CATEGORIES (globals w)) = true /\
      (declared (PATTERN_RELATIONSHIPS (globals w)) u v \/
       declared (PATTERN_RELATIONSHIPS (globals w)) v u).
Proof.
  destruct (create_pattern_network_spec w) as [G1 [G [Hrun [_ [_ [_ [_ HB]]]]]]].
  exists G. split; [exact Hrun|]. intros u v. split.
  - apply (built_justified HB).
  - intros [Hu [Hv [[l [Hl Hin]]|[l [Hl Hin]]]]].
    + apply (built_complete HB u l v); assumption.
    + apply (wf_sym (built_wf HB)), (built_complete HB v l u); assumption.
Qed.

(** X2: when the category table repeats no key, the nodes of the built
    graph are its entries in table order, each with the single attribute
    [category]. *)
Theorem nodes_in_table_order (w : world) :
  dict_wf (PATTERN_CATEGORIES (globals w)) = true ->
  exists G, run create_pattern_network w = (Ok G, w) /\
    nodes_data G = map (fun pc => (fst pc, [("category", snd pc)]))
                       (items (PATTERN_CATEGORIES (globals w))) /\
    number_of_nodes G = len (PATTERN_CATEGORIES (globals w)).
Proof.
  intros Hwf. apply dict_wf_NoDup in Hwf.
  destruct (create_pattern_network_spec w) as [G1 [G [Hrun [En [_ [Hnode _]]]]]].
  destruct (@add_pattern_nodes_fresh (PATTERN_CATEGORIES (globals w)) empty_graph Hwf)
    as [G1' [En' Hn']]; [reflexivity|].
  assert (G1' = G1) by congruence. subst G1'.
  assert (E : nodes_data G = map (fun pc => (fst pc, [("category", snd pc)]))
                               (items (PATTERN_CATEGORIES (globals w)))).
  { unfold nodes_data, items. rewrite Hnode, Hn'. reflexivity. }
  exists G. split; [exact Hrun|]. split; [exact E|].
  unfold number_of_nodes, len. change (_node G) with (nodes_data G).
  rewrite E. apply length_map.
Qed.

Lemma nodes_in_table_order_witness :
  exists G, run create_pattern_network scenario_world = (Ok G, scenario_world) /\
    nodes_data G = map (fun pc => (fst pc, [("category", snd pc)]))
                       (items (PATTERN_CATEGORIES (globals scenario_world))) /\
    number_of_nodes G = len (PATTERN_CATEGORIES (globals scenario_world)).
Proof.
  apply (@nodes_in_table_order scenario_world). reflexivity.
Defined.

(* ===================================================================== *)
(** ** Further properties of the renderer *)
(* ===================================================================== *)



(** X4: the empty string counts as no output file: the call does what it
    does for [None], so nothing is written. *)
Theorem empty_path_shows (G : Graph) (w : world) :
  run (visualize_pattern_network G (Some "")) w
  = run (visualize_pattern_network G None) w /\
  files (snd (run (visualize_pattern_network G (Some "")) w)) = files w /\
  stdout (snd (run (visualize_pattern_network G (Some "")) w)) = stdout w.
Proof.
  rewrite !Renderer.visualize_pattern_network_run. simpl. auto.
Qed.

Lemma nodelists_network_figure (g : module_globals) (G : Graph) :
  nodelists (network_figure g G)
  = map (fun cc => (fst cc, nodes_of_category G (fst cc))) (items (CATEGORIES g)).
Proof.
  unfold nodelists, network_figure, network_artists. simpl artists.
  rewrite flat_map_app. simpl. rewrite app_nil_r.
  induction (items (CATEGORIES g)) as [|cc l IH]; simpl; [reflexivity|].
  rewrite IH. reflexivity.
Qed.

Lemma drawn_labels_network_figure (g : module_globals) (G : Graph) :
  drawn_labels (network_figure g G) = keys (_node G).
Proof.
  unfold drawn_labels, network_figure, network_artists. simpl artists.
  rewrite flat_map_app. simpl. rewrite app_nil_r.
  induction (items (CATEGORIES g)) as [|cc l IH]; simpl; [reflexivity|].
  exact IH.
Qed.

Lemma count_occ_concat (ls : list (list string)) (x : string) :
  count_occ string_dec (List.concat ls) x
  = list_sum (map (fun l => count_occ string_dec l x) ls).
Proof.
  induction ls as [|l ls IH]; simpl; [reflexivity|].
  rewrite count_occ_app, IH. reflexivity.
Qed.

(** Among distinct keys, selecting entries keeps a key once or not at all. *)
Lemma count_selected {V} (p : string * V -> bool) (d : dict V) (n : string) (v : V) :
  NoDup (keys d) -> In (n, v) d ->
  count_occ string_dec (map fst (filter p d)) n = if p (n, v) then 1 else 0.
Proof.
  intros Hnd Hin. induction d as [|[k a] d IH]; simpl; [destruct Hin|].
  simpl in Hnd. inversion Hnd as [|? ? Hk Hnd']; subst.
  assert (Hsub : forall m, In m (map fst (filter p d)) -> In m (keys d)).
  { intros m Hm. apply in_map_iff in Hm. destruct Hm as [[m' a'] [E Hm]].
    simpl in E. subst m'. apply filter_In in Hm. destruct Hm as [Hm _].
    change (In (fst (m, a')) (map fst d)). apply in_map, Hm. }
  destruct Hin as [E|Hin].
  - injection E as -> ->.
    assert (H0 : count_occ string_dec (map fst (filter p d)) n = 0).
    { apply count_occ_not_In. intros Hm. apply Hk, Hsub, Hm. }
    destruct (p (n, v)); simpl; [|exact H0].
    destruct (string_dec n n); [|congruence]. rewrite H0. reflexivity.
  - assert (Hne : k <> n).
    { intros ->. apply Hk. change (In (fst (n, v)) (map fst d)). apply in_map, Hin. }
    destruct (p (k, a)); simpl; [|apply IH; assumption].
    destruct (string_dec k n); [contradiction|]. apply IH; assumption.
Qed.

Lemma sum_indicator (c : string) (ks : list string) :
  NoDup ks ->
  list_sum (map (fun k => if String.eqb c k then 1 else 0) ks)
  = if memb c ks then 1 else 0.
Proof.
  intros Hnd. induction Hnd as [|k ks Hk Hnd IH]; simpl; [reflexivity|].
  rewrite IH. destruct (String.eqb_spec c k) as [->|Hne]; simpl.
  - apply memb_false in Hk. rewrite Hk. reflexivity.
  - reflexivity.
Qed.

(** X5: the figure has one node list per entry of [CATEGORIES], in table
    order; a node is drawn once if its [category] attribute is a key of
    [CATEGORIES] and not at all otherwise, while the labels name every
    node. *)
Theorem node_groups (G : Graph) (output_file : option string) (w : world) :
  graph_wf G = true ->
  dict_wf (CATEGORIES (globals w)) = true ->
  exists w' fig,
    run (visualize_pattern_network G output_file) w = (Ok tt, w') /\
    hd_error (figures w') = Some fig /\
    nodelists fig
    = map (fun cc => (fst cc, nodes_of_category G (fst cc)))
          (items (CATEGORIES (globals w))) /\
    (forall n attrs, In (n, attrs) (nodes_data G) ->
       count_occ string_dec (drawn_nodes fig) n
       = if coloured (globals w) attrs then 1 else 0) /\
    drawn_labels fig = keys (_node G).
Proof.
  intros HG HC. apply graph_wf_WF in HG. apply dict_wf_NoDup in HC.
  eexists. exists (network_figure (globals w) G).
  rewrite Renderer.visualize_pattern_network_run.
  split; [reflexivity|].
  split; [destruct (truthy output_file); reflexivity|].
  split; [apply nodelists_network_figure|].
  split; [|apply drawn_labels_network_figure].
  intros n attrs Hin. unfold drawn_nodes.
  rewrite nodelists_network_figure, map_map, count_occ_concat, map_map. simpl.
  assert (E : map (fun cc : string * string =>
                     count_occ string_dec (nodes_of_category G (fst cc)) n)
                  (items (CATEGORIES (globals w)))
              = map (fun k => match dict_get "category" attrs with
                              | Some c => if String.eqb c k then 1 else 0
                              | None => 0
                              end)
                    (keys (CATEGORIES (globals w)))).
  { unfold keys, items. rewrite map_map. apply map_ext. intros [k col]. simpl.
    unfold nodes_of_category.
    rewrite (count_selected _ _ _ attrs (wf_node_keys HG) Hin). simpl.
    destruct (dict_get "category" attrs); reflexivity. }
  rewrite E. unfold coloured.
  destruct (dict_get "category" attrs) as [c|].
  - rewrite sum_indicator by exact HC. rewrite dict_mem_memb. reflexivity.
  - clear E HC. induction (keys (CATEGORIES (globals w))); simpl; auto.
Qed.

Lemma node_groups_witness :
  exists w' fig,
    run (visualize_pattern_network scenario_graph None) initial_world = (Ok tt, w') /\
    hd_error (figures w') = Some fig /\
    nodelists fig
    = map (fun cc => (fst cc, nodes_of_category scenario_graph (fst cc)))
          (items (CATEGORIES (globals initial_world))) /\
    (forall n attrs, In (n, attrs) (nodes_data scenario_graph) ->
       count_occ string_dec (drawn_nodes fig) n
       = if coloured (globals initial_world) attrs then 1 else 0) /\
    drawn_labels fig = keys (_node scenario_graph).
Proof.
  apply (@node_groups scenario_graph None initial_world); vm_compute; reflexivity.
Defined.

(* ===================================================================== *)
(** ** Further properties of the exporter *)
(* ===================================================================== *)

Lemma dict_set_set {V} (k : string) (v1 v2 : V) (d : dict V) :
  dict_set k v2 (dict_set k v1 d) = dict_set k v2 d.
Proof.
  induction d as [|[k0 v0] d IH]; simpl.
  - rewrite String.eqb_refl. reflexivity.
  - destruct (String.eqb k k0) eqn:E; simpl.
    + rewrite String.eqb_refl. reflexivity.
    + rewrite E, IH. reflexivity.
Qed.


(** X7: exporting a second graph to the same path replaces the document:
    the file then holds the second graph's document and the files are
    otherwise those left by the first export. *)
Theorem export_overwrites (G1 G2 : Graph) (output_file : string) (w : world) :
  exists w1 w2,
    run (save_network_data G1 output_file) w = (Ok tt, w1) /\
    run (save_network_data G2 output_file) w1 = (Ok tt, w2) /\
    dict_get output_file (files w2) = Some (JsonFile (document G2) 2) /\
    keys (files w2) = keys (files w1) /\
    files w2 = files (snd (run (save_network_data G2 output_file) w)).
Proof.
  eexists. eexists.
  split; [apply Exporter.save_network_data_run|].
  split; [apply Exporter.save_network_data_run|].
  rewrite Exporter.save_network_data_run. simpl.
  split; [rewrite dict_get_set, String.eqb_refl; reflexivity|].
  split.
  - rewrite keys_set, dict_mem_set, String.eqb_refl. reflexivity.
  - apply dict_set_set.
Qed.

(** X8: the node objects name every node of the graph once, in insertion
    order, and the link objects give the pairs of [G.edges()] in order. *)
Theorem export_lists_all (G : Graph) (output_file : string) (w : world) :
  exists nodes links,
    exported G output_file w = Some (nodes, links) /\
    map node_id nodes = map Some (keys (_node G)) /\
    map link_ends links = map Some (edges G).
Proof.
  exists (map node_object (nodes_data G)), (map link_object (edges G)).
  split; [apply exported_document|]. rewrite !map_map. split.
  - unfold keys, nodes_data, items. rewrite map_map. apply map_ext.
    intros [n attrs]. reflexivity.
  - apply map_ext. intros [s t]. reflexivity.
Qed.

(* ===================================================================== *)
(** ** Properties of the entry point *)
(* ===================================================================== *)

Module MainFacts.














Lemma blocked_find_some (p : Path) (s : system) :
  blocked p s = true ->
  exists q, find (fun q => is_file q s) (lineage p) = Some q.
Proof.
  unfold blocked. induction (lineage p) as [|q qs IH]; simpl; [discriminate|].
  destruct (is_file q s); simpl; eauto.
Qed.


End MainFacts.

Import MainFacts.





(** X11: when a regular file sits at the output directory or above it,
    [main] stops at the directory creation with a file-system error: it
    builds nothing, writes nothing and prints nothing. *)
Theorem main_blocked (script_file : Path) (s : system) :
  blocked (output_dir_of script_file) s = true ->
  exists e, main script_file s = (OSFault e, s).
Proof.
  intros Hb. destruct (blocked_find_some _ _ Hb) as [q Hq].
  unfold main, sys_bind, mkdir_parents_exist_ok. rewrite Hq.
  eexists. reflexivity.
Qed.

Lemma main_blocked_witness :
  exists e, main script_path blocked_system = (OSFault e, blocked_system).
Proof.
  apply (@main_blocked script_path blocked_system). reflexivity.
Defined.

(** X12: in the tables the script ships, every category label has a
    colour and every pattern with relationships is categorized; the only
    relationship entries that name an uncategorized pattern, and so give
    no edge, are Emergent Behavior to Self-Organization and Feedback Loops
    to Adaptive Capacity. *)
Theorem script_tables (p r : string) (l : list string) :
  In (p, l) (items (PATTERN_RELATIONSHIPS script_globals)) -> In r l ->
  dict_mem p (PATTERN_CATEGORIES script_globals) = true /\
  (forall c, dict_get p (PATTERN_CATEGORIES script_globals) = Some c ->
     dict_mem c (CATEGORIES script_globals) = true) /\
  (dict_mem r (PATTERN_CATEGORIES script_globals) = false <->
   (p, r) = ("Emergent Behavior", "Self-Organization") \/
   (p, r) = ("Feedback Loops", "Adaptive Capacity")).
Proof.
  intros Hpl Hr. vm_compute in Hpl.
  repeat (destruct Hpl as [Hpl|Hpl];
          [injection Hpl as <- <-; simpl in Hr;
           repeat (destruct Hr as [<-|Hr]; [|]); try destruct Hr;
           (split; [reflexivity|]; split;
            [intros c Hc; vm_compute in Hc; injection Hc as <-; reflexivity|];
            vm_compute; split;
            [intros H; first [discriminate H | auto]
            |intros [H|H]; first [reflexivity | discriminate H]])|]).
  destruct Hpl.
Qed.

Lemma script_tables_witness :
  dict_mem "Feedback Loops" (PATTERN_CATEGORIES script_globals) = true /\
  (forall c, dict_get "Feedback Loops" (PATTERN_CATEGORIES script_globals) = Some c ->
     dict_mem c (CATEGORIES script_globals) = true) /\
  (dict_mem "Adaptive Capacity" (PATTERN_CATEGORIES script_globals) = false <->
   ("Feedback Loops", "Adaptive Capacity") = ("Emergent Behavior", "Self-Organization") \/
   ("Feedback Loops", "Adaptive Capacity") = ("Feedback Loops", "Adaptive Capacity")).
Proof.
  apply (@script_tables "Feedback Loops" "Adaptive Capacity"
           ["Emergent Behavior"; "Cyclical Patterns"; "Adaptive Capacity"]).
  - vm_compute. tauto.
  - simpl. tauto.
Defined.
